(** * GenVideoAi backend: a shallow embedding of [app.py]

    The Flask application of [app.py] is embedded as explicit state passing
    over a [World] (the relational store, the media folders, the SMTP outbox
    and the log), read through an [Env] that carries the configuration and
    the answers of the collaborators the code treats as opaque (the JWT
    library, the payment gateway, the SMTP relay, the clock and the random
    generator).

    Conventions of the embedding:
    - a view returns a [Response]; an exception that escapes a view is kept
      as [Unhandled e] (the framework answers it with a 500);
    - request bodies are JSON objects whose members are strings ([dict]);
    - Python floats are read as exact rationals ([Q]);
    - [datetime] values are seconds on the local clock and [date] values are
      day numbers, so [(datetime.now() + timedelta(days=d)).date()] is
      [today + d];
    - an [execute] on a cursor is applied to the store at once: on every
      path of the views embedded here a write is followed by its [commit]
      before anything can raise. *)

From Stdlib Require Import String Ascii List ZArith Bool Lia QArith Qminmax Qround Lqa DecimalString.
Import ListNotations.
Open Scope string_scope.
Open Scope Z_scope.

(** ** Python values *)

Record Exn := mkExn { exn_class : string; exn_msg : string }.

Definition str_exn (e : Exn) : string := exn_msg e.

#[local] Set Warnings "-register-all".

Inductive json :=
| JNull
| JBool (b : bool)
| JInt (z : Z)
| JNum (q : Q)
| JStr (s : string)
| JList (items : list json)
| JObj (members : list (string * json)).

Inductive Response :=
| Resp (body : json) (code : Z)
| SendFile (directory filename mimetype : string)
| Unhandled (e : Exn).

Definition status (r : Response) : Z :=
  match r with
  | Resp _ code => code
  | SendFile _ _ _ => 200
  | Unhandled _ => 500
  end.

Definition dict := list (string * string).

Fixpoint get (d : dict) (key : string) : option string :=
  match d with
  | [] => None
  | (k, v) :: rest => if String.eqb k key then Some v else get rest key
  end.

Definition contains (d : dict) (key : string) : bool :=
  match get d key with Some _ => true | None => false end.

(** [bool(x)] for a value that is [None] or a string. *)
Definition truthy (x : option string) : bool :=
  match x with
  | Some s => negb (String.eqb s "")
  | None => false
  end.

Definition str_int (z : Z) : string := NilZero.string_of_int (Z.to_int z).

Definition json_opt (x : option string) : json :=
  match x with Some s => JStr s | None => JNull end.

(** [s.split(sep)] for a one-character separator. *)
Fixpoint split_aux (sep : ascii) (s : string) (cur : string) : list string :=
  match s with
  | EmptyString => [cur]
  | String c rest =>
      if Ascii.eqb c sep then cur :: split_aux sep rest ""
      else split_aux sep rest (cur ++ String c "")
  end.

Definition split (sep : ascii) (s : string) : list string := split_aux sep s "".

(** ** The relational store *)

Record User := mkUser {
  u_id : Z;
  u_email : string;
  u_password : string;
  u_name : string;
  u_subscription : string;
  u_subscription_expiry : option Z;
  u_auth_key : option string;
  u_reset_token : option string;
  u_reset_token_expiry : option Z
}.

Record Video := mkVideo {
  v_id : Z;
  v_user_id : Z;
  v_filename : string;
  v_duration : Q;
  v_created_at : Z
}.

Record PaymentOrder := mkOrder {
  po_order_id : string;
  po_user_id : Z;
  po_amount : Q;
  po_subscription_type : string;
  po_duration_days : Z;
  po_status : string;
  po_created_at : Z;
  po_updated_at : option Z;
  po_payment_response : option string
}.

Record Payment := mkPayment {
  p_order_id : string;
  p_cf_order_id : option string;
  p_user_id : Z;
  p_amount : Q;
  p_payment_status : option string;
  p_payment_method : option string;
  p_transaction_id : option string;
  p_payment_date : Z
}.

Record DB := mkDB {
  users : list User;
  videos : list Video;
  payment_orders : list PaymentOrder;
  payments : list Payment
}.

(** [cursor.lastrowid] of an insert into a table whose ids are [ids]. *)
Definition next_id (ids : list Z) : Z := 1 + fold_right Z.max 0 ids.

(** ** Files, mail, log *)

(** A regular file [f_name] in directory [f_dir]; [f_locked] files make
    [os.unlink] / [os.remove] raise [OSError]. *)
Record FileEntry := mkFile { f_dir : string; f_name : string; f_locked : bool }.

Record Email := mkEmail { m_to : string; m_subject : string; m_body : string }.

Inductive Level := INFO | ERROR.

Record World := mkWorld {
  w_db : DB;
  w_dirs : list string;
  w_files : list FileEntry;
  w_outbox : list Email;
  w_log : list (Level * string)
}.

(** ** Configuration and collaborators *)

Inductive jwt_result :=
| Decoded (user_id : option Z)
| ExpiredSignatureError
| InvalidTokenError.

Record GatewayOrder := mkGatewayOrder {
  g_status_code : Z;
  g_order_status : option string;
  g_payment_status : option string;
  g_payment_method : option string;
  g_cf_payment_id : option string;
  g_cf_order_id : option string;
  g_text : string
}.

Record Env := mkEnv {
  MAX_VIDEOS_PER_USER : Z;
  RESET_TOKEN_EXPIRY_HOURS : Z;
  JWT_EXPIRATION : Z;
  OUTPUT_BASE_FOLDER : string;
  IMAGE_FOLDER : string;
  VOICE_FOLDER : string;
  BACKGROUND_FOLDER : string;
  frontend_url : string;
  (* the database server accepts connections *)
  db_up : bool;
  (* datetime.now(), in seconds *)
  now : Z;
  (* str(date) *)
  str_date : Z -> string;
  (* jwt.decode(token, SECRET_KEY, algorithms=["HS256"]) *)
  jwt_decode : string -> jwt_result;
  (* jwt.encode({'user_id': u, 'exp': e}, SECRET_KEY) *)
  jwt_encode : Z -> Z -> string;
  (* GET {CASHFREE_BASE_URL}/orders/{order_id}; None when the call raises *)
  gateway_order : string -> option GatewayOrder;
  (* the SMTP session (connect, starttls, login, send) succeeds *)
  smtp_ok : bool;
  (* the k-th value of random.random() drawn by get_random_duration *)
  random_unit : nat -> Q;
  (* random.shuffle, as the permutation it leaves in the list *)
  shuffle : list string -> list string;
  (* ''.join(random.choices('0123456789', k=4)) *)
  random_suffix : string;
  (* datetime.now().strftime("%Y%m%d_%H%M%S") *)
  strftime_now : string;
  (* float(s); None when it raises ValueError *)
  py_float : string -> option Q;
  (* werkzeug.utils.secure_filename *)
  secure_filename : string -> string;
  (* the root url_for(..., _external=True) builds on *)
  url_root : string
}.

Definition seconds_per_day : Z := 86400.

Definition date_of (t : Z) : Z := t / seconds_per_day.

Definition today (env : Env) : Z := date_of (now env).

(** [(datetime.now() + timedelta(days=d)).date()] *)
Definition date_after (env : Env) (d : Z) : Z := date_of (now env + d * seconds_per_day).

(** ** Views as state-passing computations

    A computation yields a value, returns a response from the enclosing
    view, or raises; the world it leaves behind is kept in every case. *)

Inductive res (A : Type) :=
| Val (a : A)
| Ret (r : Response)
| Exc (e : Exn).

Arguments Val {A} a.
Arguments Ret {A} r.
Arguments Exc {A} e.

Definition M (A : Type) : Type := World -> res A * World.

Definition pure {A} (a : A) : M A := fun w => (Val a, w).

Definition bind {A B} (c : M A) (k : A -> M B) : M B :=
  fun w =>
    match c w with
    | (Val a, w') => k a w'
    | (Ret r, w') => (Ret r, w')
    | (Exc e, w') => (Exc e, w')
    end.

Definition return_ {A} (r : Response) : M A := fun w => (Ret r, w).

Definition raise {A} (e : Exn) : M A := fun w => (Exc e, w).

(** [try: body except Exception as e: handler e] *)
Definition try_except {A} (body : M A) (handler : Exn -> M A) : M A :=
  fun w =>
    match body w with
    | (Exc e, w') => handler e w'
    | other => other
    end.

(** [try: body finally: cleanup]: an exception of [cleanup] replaces the
    outcome of [body]. *)
Definition try_finally {A} (body : M A) (cleanup : M unit) : M A :=
  fun w =>
    match body w with
    | (out, w') =>
        match cleanup w' with
        | (Val _, w'') => (out, w'')
        | (Ret r, w'') => (Ret r, w'')
        | (Exc e, w'') => (Exc e, w'')
        end
    end.

Declare Scope view_scope.
Delimit Scope view_scope with view.
Notation "x <- c ;; k" := (bind c (fun x => k))
  (at level 100, c at next level, right associativity) : view_scope.
Notation "c ;; k" := (bind c (fun _ => k))
  (at level 100, right associativity) : view_scope.
Open Scope view_scope.

Definition when {A} (b : bool) (c : M A) : M unit :=
  if b then (_ <- c ;; pure tt) else pure tt.

(** What the framework sends for a view. *)
Definition run (view : M Response) (w : World) : Response * World :=
  match view w with
  | (Val r, w') => (r, w')
  | (Ret r, w') => (r, w')
  | (Exc e, w') => (Unhandled e, w')
  end.

Definition read_db : M DB := fun w => (Val (w_db w), w).

Definition write_db (f : DB -> DB) : M unit :=
  fun w => (Val tt, mkWorld (f (w_db w)) (w_dirs w) (w_files w) (w_outbox w) (w_log w)).

Definition log (lvl : Level) (msg : string) : M unit :=
  fun w => (Val tt, mkWorld (w_db w) (w_dirs w) (w_files w) (w_outbox w) (w_log w ++ [(lvl, msg)])).

Definition AttributeError_None (attr : string) : Exn :=
  mkExn "AttributeError" ("'NoneType' object has no attribute '" ++ attr ++ "'").

(** [get_db_connection()]: the connection, or [None] after logging. *)
Definition get_db_connection (env : Env) : M bool :=
  if db_up env then pure true
  else (log ERROR "Database connection error: can't connect" ;; pure false).

(** [conn.cursor(...)] on what [get_db_connection] returned. *)
Definition cursor (conn : bool) : M unit :=
  if conn then pure tt else raise (AttributeError_None "cursor").

(** [mysql.connector.connect] with the configured credentials. *)
Definition connect (env : Env) : M unit :=
  if db_up env then pure tt else raise (mkExn "InterfaceError" "can't connect").

(** ** Requests *)

(** An uploaded file; [up_audio] is the duration the media library reads
    from it, [None] when it cannot be opened as audio. *)
Record Upload := mkUpload { up_filename : string; up_audio : option Q }.

Record Request := mkRequest {
  headers : dict;
  args : dict;
  form : dict;
  json_body : option dict;
  files : list (string * Upload)
}.

Definition message (msg : string) : json := JObj [("message", JStr msg)].

Definition error (msg : string) : json := JObj [("error", JStr msg)].

(** ** Authentication decorators *)

Module Auth.

(** [request.headers['Authorization'].split(" ")[1]] *)
Definition bearer (req : Request) : M (option string) :=
  match get (headers req) "Authorization" with
  | Some h =>
      match nth_error (split " " h) 1 with
      | Some t => pure (Some t)
      | None => raise (mkExn "IndexError" "list index out of range")
      end
  | None => pure None
  end.

Definition decode (env : Env) (token : string) : M (option Z) :=
  match jwt_decode env token with
  | Decoded payload => pure payload
  | ExpiredSignatureError => raise (mkExn "ExpiredSignatureError" "Signature has expired")
  | InvalidTokenError => raise (mkExn "InvalidTokenError" "Invalid token")
  end.

(** [data['user_id']] *)
Definition payload_user_id (payload : option Z) : M Z :=
  match payload with
  | Some uid => pure uid
  | None => raise (mkExn "KeyError" "'user_id'")
  end.

(** [SELECT * FROM users WHERE id = %s], [fetchone()] *)
Definition select_user_by_id (uid : Z) : M (option User) :=
  db <- read_db ;;
  pure (find (fun u => u_id u =? uid) (users db)).

Definition View := User -> Request -> M Response.

Definition token_required (env : Env) (f : View) (req : Request) : M Response :=
  token <- bearer req ;;
  if negb (truthy token) then return_ (Resp (message "Token is missing") 401)
  else
    current_user <-
      try_except
        (data <- decode env (match token with Some t => t | None => "" end) ;;
         conn <- get_db_connection env ;;
         cursor conn ;;
         uid <- payload_user_id data ;;
         current_user <- select_user_by_id uid ;;
         match current_user with
         | None => return_ (Resp (message "Invalid token") 401)
         | Some u => pure u
         end)
        (fun _ => return_ (Resp (message "Invalid token") 401)) ;;
    f current_user req.

Definition subscription_expired_body (env : Env) (expiry : Z) : json :=
  JObj [("message", JStr "Subscription expired");
        ("subscription_expired", JBool true);
        ("subscription_expiry", JStr (str_date env expiry))].

Definition subscription_required (env : Env) (f : View) (req : Request) : M Response :=
  token <- bearer req ;;
  if negb (truthy token) then return_ (Resp (message "Token is missing") 401)
  else
    current_user <-
      try_except
        (data <- decode env (match token with Some t => t | None => "" end) ;;
         conn <- get_db_connection env ;;
         cursor conn ;;
         uid <- payload_user_id data ;;
         current_user <- select_user_by_id uid ;;
         match current_user with
         | None => return_ (Resp (message "Invalid token") 401)
         | Some u =>
             match u_subscription_expiry u with
             | Some expiry_date =>
                 if expiry_date <? today env
                 then return_ (Resp (subscription_expired_body env expiry_date) 403)
                 else pure u
             | None => pure u
             end
         end)
        (fun _ => return_ (Resp (message "Invalid token") 401)) ;;
    f current_user req.

End Auth.

(** ** Media folders *)

Module Files.

(** [os.path.join(a, b)] for a relative [b]. *)
Definition join (a b : string) : string := a ++ "/" ++ b.

Definition is_entry (dir name : string) (f : FileEntry) : bool :=
  String.eqb (f_dir f) dir && String.eqb (f_name f) name.

Definition isfile (w : World) (dir name : string) : bool :=
  existsb (is_entry dir name) (w_files w).

Definition isdir (w : World) (path : string) : bool :=
  existsb (String.eqb path) (w_dirs w).

(** [os.path.exists(os.path.join(dir, name))] *)
Definition exists_ (dir name : string) : M bool :=
  fun w => (Val (isfile w dir name || isdir w (join dir name)), w).

Definition set_files (fs : list FileEntry) : M unit :=
  fun w => (Val tt, mkWorld (w_db w) (w_dirs w) fs (w_outbox w) (w_log w)).

(** [os.makedirs(path, exist_ok=True)] *)
Definition makedirs (path : string) : M unit :=
  fun w =>
    (Val tt,
     if isdir w path then w
     else mkWorld (w_db w) (w_dirs w ++ [path]) (w_files w) (w_outbox w) (w_log w)).

Definition PermissionError (dir name : string) : Exn :=
  mkExn "PermissionError" ("[Errno 13] Permission denied: '" ++ join dir name ++ "'").

Definition FileNotFoundError (dir name : string) : Exn :=
  mkExn "FileNotFoundError" ("[Errno 2] No such file or directory: '" ++ join dir name ++ "'").

(** [os.remove(os.path.join(dir, name))] *)
Definition remove (dir name : string) : M unit :=
  fun w =>
    match find (is_entry dir name) (w_files w) with
    | Some f =>
        if f_locked f then (Exc (PermissionError dir name), w)
        else set_files (filter (fun g => negb (is_entry dir name g)) (w_files w)) w
    | None =>
        if isdir w (join dir name) then (Exc (PermissionError dir name), w)
        else (Exc (FileNotFoundError dir name), w)
    end.

(** The loop of [clear_folder]: the regular files of [dir] are unlinked in
    listing order; the first one that cannot be unlinked raises and leaves
    the rest in place. *)
Fixpoint unlink_all (dir : string) (fs : list FileEntry) : list FileEntry * option Exn :=
  match fs with
  | [] => ([], None)
  | f :: rest =>
      if String.eqb (f_dir f) dir then
        if f_locked f then (f :: rest, Some (PermissionError dir (f_name f)))
        else unlink_all dir rest
      else
        let (kept, e) := unlink_all dir rest in (f :: kept, e)
  end.

Definition unlink_listing (dir : string) : M unit :=
  fun w =>
    let (kept, e) := unlink_all dir (w_files w) in
    match e with
    | None => set_files kept w
    | Some e => (Exc e, snd (set_files kept w))
    end.

Definition clear_folder (folder_path : string) : M bool :=
  try_except
    (fun w =>
       if isdir w folder_path
       then (unlink_listing folder_path ;; pure true) w
       else pure true w)
    (fun e =>
       log ERROR ("Error clearing folder " ++ folder_path ++ ": " ++ str_exn e) ;;
       pure false).

Definition user_folder_name (env : Env) (user_id : Z) : string :=
  join (OUTPUT_BASE_FOLDER env) ("user_" ++ str_int user_id).

Definition get_user_output_folder (env : Env) (user_id : Z) : M string :=
  let user_folder := user_folder_name env user_id in
  makedirs user_folder ;;
  pure user_folder.


End Files.

(** ** Video records *)

Module Videos.

Import Files.

Definition owned_by (user_id : Z) (v : Video) : bool := v_user_id v =? user_id.

Definition named (filename : string) (v : Video) : bool := String.eqb (v_filename v) filename.

Definition set_videos (vs : list Video) (db : DB) : DB :=
  mkDB (users db) vs (payment_orders db) (payments db).

(** [SELECT COUNT( * ) as count FROM videos WHERE user_id = %s] *)
Definition get_user_video_count (env : Env) (user_id : Z) : M Z :=
  try_except
    (conn <- get_db_connection env ;;
     cursor conn ;;
     db <- read_db ;;
     pure (Z.of_nat (length (filter (owned_by user_id) (videos db)))))
    (fun e =>
       log ERROR ("Error getting user video count: " ++ str_exn e) ;;
       pure 0).

Definition clear_cache_route (env : Env) (current_user : User) (req : Request) : M Response :=
  try_except
    (user_folder <- get_user_output_folder env (u_id current_user) ;;
     success <- clear_folder user_folder ;;
     (* Also clear database records *)
     conn <- get_db_connection env ;;
     cursor conn ;;
     write_db (fun db =>
       set_videos (filter (fun v => negb (owned_by (u_id current_user) v)) (videos db)) db) ;;
     if success then return_ (Resp (message "Cache cleared successfully") 200)
     else return_ (Resp (error "Failed to clear cache") 500))
    (fun e =>
       log ERROR ("Error in clear_cache_route: " ++ str_exn e) ;;
       return_ (Resp (error (str_exn e)) 500)).

Definition UnboundLocalError (name : string) : Exn :=
  mkExn "UnboundLocalError"
        ("cannot access local variable '" ++ name ++ "' where it is not associated with a value").

(** [request.get_json()] followed by [data.get(...)] *)
Definition get_json (req : Request) : M dict :=
  match json_body req with
  | Some data => pure data
  | None => raise (AttributeError_None "get")
  end.

Definition delete_video_except {A} (e : Exn) : M A :=
  log ERROR ("Unexpected error in delete_video: " ++ str_exn e) ;;
  return_ (Resp (error (str_exn e)) 500).

(** The statements of [delete_video] up to the binding of [cursor]. *)
Definition delete_video_open (env : Env) (req : Request) : M (option string * option string) :=
  data <- get_json req ;;
  let video_id := get data "videoId" in
  let filename := get data "filename" in
  if negb (truthy video_id) && negb (truthy filename) then
    log ERROR "Either Video ID or Filename is required" ;;
    return_ (Resp (error "Video ID or Filename is required") 400)
  else
    conn <- get_db_connection env ;;
    cursor conn ;;
    pure (video_id, filename).

(** The key both statements of [delete_video] compare with the filename
    column: [videoId] when it is given, [filename] otherwise. *)
Definition delete_key (video_id filename : option string) : string :=
  if truthy video_id
  then match video_id with Some s => s | None => "" end
  else match filename with Some s => s | None => "" end.

(** The statements of [delete_video] after the binding of [cursor]. *)
Definition delete_video_body (env : Env) (current_user : User)
    (video_id filename : option string) : M Response :=
  db <- read_db ;;
  (* SELECT * FROM videos WHERE filename = %s AND user_id = %s *)
  let video :=
    find (fun v => named (delete_key video_id filename) v && owned_by (u_id current_user) v)
         (videos db) in
  match video with
  | None => return_ (Resp (error "Video not found or unauthorized") 404)
  | Some video =>
      user_folder <- get_user_output_folder env (u_id current_user) ;;
      present <- exists_ user_folder (v_filename video) ;;
      if negb present then
        log ERROR ("Video not found at path: " ++ join user_folder (v_filename video)) ;;
        return_ (Resp (error "Video not found") 404)
      else
        try_except
          (remove user_folder (v_filename video) ;;
           (* DELETE FROM videos WHERE filename = %s *)
           write_db (fun db =>
             set_videos (filter (fun v => negb (named (delete_key video_id filename) v))
                                (videos db)) db) ;;
           return_ (Resp (message "Video deleted successfully") 200))
          (fun e =>
             log ERROR ("Error deleting video " ++ v_filename video ++ ": " ++ str_exn e) ;;
             return_ (Resp (error ("Failed to delete video: " ++ str_exn e)) 500))
  end.

(** [delete_video]: the [finally] clause closes [cursor]; on the paths that
    leave the [try] before [cursor] is bound it raises instead. *)
Definition delete_video (env : Env) (current_user : User) (req : Request) : M Response :=
  fun w =>
    match try_except (delete_video_open env req) delete_video_except w with
    | (Val (video_id, filename), w') =>
        try_finally
          (try_except (delete_video_body env current_user video_id filename)
                      delete_video_except)
          (pure tt) w'
    | (_, w') => (Exc (UnboundLocalError "cursor"), w')
    end.



End Videos.

(** ** The clips of the media library

    Only what [generate_video] reads back from the library is kept: the
    image, the timing and the effects of a clip, and the duration of a
    concatenation ([method="compose"] plays the clips one after the other,
    so its duration is the sum of theirs). *)

Module Moviepy.

Record Clip := mkClip {
  c_image : string;
  c_duration : Q;
  c_start : Q;
  c_text : option string;
  c_fadein : option Q;
  c_fadeout : option Q
}.

Definition ImageClip (img_path : string) : Clip := mkClip img_path 0%Q 0%Q None None None.

Definition set_duration (c : Clip) (d : Q) : Clip :=
  mkClip (c_image c) d (c_start c) (c_text c) (c_fadein c) (c_fadeout c).

Definition set_start (c : Clip) (t : Q) : Clip :=
  mkClip (c_image c) (c_duration c) t (c_text c) (c_fadein c) (c_fadeout c).

Definition fadein (c : Clip) (d : Q) : Clip :=
  mkClip (c_image c) (c_duration c) (c_start c) (c_text c) (Some d) (c_fadeout c).

Definition fadeout (c : Clip) (d : Q) : Clip :=
  mkClip (c_image c) (c_duration c) (c_start c) (c_text c) (c_fadein c) (Some d).

(** [CompositeVideoClip([clip, text])] with [text] set to the clip's duration. *)
Definition with_caption (c : Clip) (text : string) : Clip :=
  mkClip (c_image c) (c_duration c) (c_start c) (Some text) (c_fadein c) (c_fadeout c).

Definition c_end (c : Clip) : Q := (c_start c + c_duration c)%Q.

Definition total (ds : list Q) : Q := fold_right Qplus 0%Q ds.

Record VideoClip := mkVideoClip { vc_clips : list Clip; vc_duration : Q }.

Definition concatenate_videoclips (clips : list Clip) : VideoClip :=
  mkVideoClip clips (total (map c_duration clips)).

End Moviepy.

(** ** Video generation *)

Module Generate.

Import Files Videos Moviepy.

Definition get_random_duration (env : Env) (k : nat) (min_time max_time : Q) : Q :=
  (min_time + (max_time - min_time) * random_unit env k)%Q.

Definition apply_transition_effects (clip1 clip2 : Clip) (transition_type : string)
    (duration : Q) : Clip * Clip :=
  if String.eqb transition_type "fade" then
    (fadeout clip1 duration, fadein clip2 duration)
  else if String.eqb transition_type "slide" then
    (set_start clip1 (c_end clip1), set_start clip2 (c_end clip1 + duration)%Q)
  else (clip1, clip2).

Definition generate_unique_filename (env : Env) : string :=
  "video_" ++ strftime_now env ++ "_" ++ random_suffix env ++ ".mp4".

Definition save_video_record (env : Env) (user_id : Z) (filename : string) (duration : Q)
    : M bool :=
  try_except
    (conn <- get_db_connection env ;;
     cursor conn ;;
     write_db (fun db =>
       set_videos (videos db ++
                   [mkVideo (next_id (map v_id (videos db))) user_id filename duration (now env)])
                  db) ;;
     pure true)
    (fun e =>
       log ERROR ("Error saving video record: " ++ str_exn e) ;;
       pure false).

(** The request as the rendering loop reads it. *)
Record Job := mkJob {
  j_min_time : Q;
  j_max_time : Q;
  j_transition_type : string;
  j_transition_time : Q;
  j_image_paths : list string;
  j_text_overlays : list string;
  j_voice_duration : Q
}.

Definition form_float (env : Env) (req : Request) (key : string) (default : Q) : M Q :=
  match get (form req) key with
  | None => pure default
  | Some s =>
      match py_float env s with
      | Some q => pure q
      | None => raise (mkExn "ValueError" ("could not convert string to float: '" ++ s ++ "'"))
      end
  end.

Definition getlist {A} (d : list (string * A)) (key : string) : list A :=
  map snd (filter (fun kv => String.eqb (fst kv) key) d).

Definition has_file (req : Request) (key : string) : bool :=
  existsb (fun kv => String.eqb (fst kv) key) (files req).

(** [request.files[key]] *)
Definition file_item (req : Request) (key : string) : M Upload :=
  match getlist (files req) key with
  | u :: _ => pure u
  | [] => raise (mkExn "BadRequestKeyError" "400 Bad Request")
  end.

(** [FileStorage.save(os.path.join(dir, name))] *)
Definition save (dir name : string) : M unit :=
  fun w =>
    if String.eqb name ""
    then (Exc (mkExn "IsADirectoryError" ("[Errno 21] Is a directory: '" ++ join dir name ++ "'")), w)
    else set_files (filter (fun g => negb (is_entry dir name g)) (w_files w)
                    ++ [mkFile dir name false]) w.

Fixpoint save_images (env : Env) (images : list Upload) : M (list string) :=
  match images with
  | [] => pure []
  | img :: rest =>
      if negb (String.eqb (up_filename img) "") then
        let filename := secure_filename env (up_filename img) in
        save (IMAGE_FOLDER env) filename ;;
        paths <- save_images env rest ;;
        pure (join (IMAGE_FOLDER env) filename :: paths)
      else save_images env rest
  end.

(** [AudioFileClip(path).duration] *)
Definition audio_duration (u : Upload) : M Q :=
  match up_audio u with
  | Some d => pure d
  | None => raise (mkExn "OSError" "MoviePy error: failed to read the duration of file")
  end.

Definition clear_inputs (env : Env) : M unit :=
  clear_folder (IMAGE_FOLDER env) ;;
  clear_folder (VOICE_FOLDER env) ;;
  clear_folder (BACKGROUND_FOLDER env) ;;
  pure tt.

Definition limit_reached (env : Env) (video_count : Z) : json :=
  JObj [("error", JStr ("You have reached the maximum limit of "
                        ++ str_int (MAX_VIDEOS_PER_USER env)
                        ++ " videos. Please delete some videos before generating new ones."));
        ("videoCount", JInt video_count);
        ("limit", JInt (MAX_VIDEOS_PER_USER env))].

(** [generate_video] up to the rendering loop. *)
Definition generate_video_setup (env : Env) (current_user : User) (req : Request) : M Job :=
  (* Check if the user has reached their video limit *)
  video_count <- get_user_video_count env (u_id current_user) ;;
  if MAX_VIDEOS_PER_USER env <=? video_count then
    return_ (Resp (limit_reached env video_count) 403)
  else
    min_time <- form_float env req "minTime" 3%Q ;;
    max_time <- form_float env req "maxTime" 5%Q ;;
    let image_selection :=
      match get (form req) "imageSelection" with Some s => s | None => "ascending" end in
    let transition_type :=
      match get (form req) "transitionType" with Some s => s | None => "fade" end in
    transition_time <- form_float env req "transitionTime" (1 # 2)%Q ;;
    voice_volume <- form_float env req "voiceVolume" 1%Q ;;
    background_volume <- form_float env req "backgroundVolume" (3 # 10)%Q ;;
    let text_overlays := getlist (form req) "textOverlays" in
    if negb (has_file req "images") || negb (has_file req "voice")
       || negb (has_file req "backgroundSound") then
      return_ (Resp (error "Missing required files") 400)
    else
      let images := getlist (files req) "images" in
      voice_file <- file_item req "voice" ;;
      background_sound <- file_item req "backgroundSound" ;;
      clear_inputs env ;;
      image_paths <- save_images env images ;;
      let image_paths :=
        if String.eqb image_selection "random" then shuffle env image_paths
        else if String.eqb image_selection "descending" then rev image_paths
        else image_paths in
      save (VOICE_FOLDER env) (secure_filename env (up_filename voice_file)) ;;
      save (BACKGROUND_FOLDER env) (secure_filename env (up_filename background_sound)) ;;
      voice_duration <- audio_duration voice_file ;;
      _ <- audio_duration background_sound ;;
      pure (mkJob min_time max_time transition_type transition_time
                  image_paths text_overlays voice_duration).

Definition is_nil {A} (l : list A) : bool :=
  match l with [] => true | _ => false end.

(** The [while] loop of [generate_video]; [None] when [fuel] iterations do
    not reach its exit. *)
Fixpoint slides (fuel : nat) (env : Env) (job : Job) (total_duration : Q) (img_index : nat)
    : option (list Clip) :=
  match fuel with
  | O => None
  | S fuel' =>
      if Qlt_le_dec total_duration (j_voice_duration job) then
        if is_nil (j_image_paths job) then Some []
        else
          let duration :=
            Qmin (get_random_duration env img_index (j_min_time job) (j_max_time job))
                 (j_voice_duration job - total_duration)%Q in
          let img_path :=
            nth (Nat.modulo img_index (length (j_image_paths job))) (j_image_paths job) "" in
          let clip := set_duration (ImageClip img_path) duration in
          let clip :=
            match nth_error (j_text_overlays job) img_index with
            | Some text => if negb (String.eqb text "") then with_caption clip text else clip
            | None => clip
            end in
          match slides fuel' env job (total_duration + duration)%Q (S img_index) with
          | Some clips => Some (clip :: clips)
          | None => None
          end
      else Some []
  end.

(** The transition loop: [last] is [final_clips[-1]]. *)
Fixpoint transitions (transition_type : string) (transition_time : Q) (last : Clip)
    (rest : list Clip) : list Clip :=
  match rest with
  | [] => [last]
  | c :: rest' =>
      let (clip1, clip2) := apply_transition_effects last c transition_type transition_time in
      clip1 :: transitions transition_type transition_time clip2 rest'
  end.

Definition final_video (job : Job) (clips : list Clip) : M VideoClip :=
  match clips with
  | [] => raise (mkExn "IndexError" "list index out of range")
  | first :: rest =>
      pure (concatenate_videoclips
              (transitions (j_transition_type job) (j_transition_time job) first rest))
  end.

Definition generated (env : Env) (output_filename : string) (new_count : Z) : json :=
  JObj [("message", JStr "Video generated successfully");
        ("videoUrl", JStr (url_root env ++ "/video/" ++ output_filename));
        ("filename", JStr output_filename);
        ("videoCount", JInt new_count);
        ("limit", JInt (MAX_VIDEOS_PER_USER env))].

(** [generate_video] after the rendering loop. *)
Definition generate_video_render (env : Env) (current_user : User) (job : Job)
    (clips : list Clip) : M Response :=
  video <- final_video job clips ;;
  let output_filename := generate_unique_filename env in
  user_folder <- get_user_output_folder env (u_id current_user) ;;
  (* final_video.write_videofile(output_path, ...) *)
  save user_folder output_filename ;;
  save_video_record env (u_id current_user) output_filename (j_voice_duration job) ;;
  clear_inputs env ;;
  new_count <- get_user_video_count env (u_id current_user) ;;
  return_ (Resp (generated env output_filename new_count) 200).

Definition generate_video_except {A} (e : Exn) : M A :=
  log ERROR ("Error generating video: " ++ str_exn e) ;;
  return_ (Resp (error (str_exn e)) 500).

(** [generate_video]; [None] when the rendering loop does not leave within
    [fuel] iterations. *)
Definition generate_video (fuel : nat) (env : Env) (current_user : User) (req : Request)
    : World -> option (res Response * World) :=
  fun w =>
    match try_except (generate_video_setup env current_user req) generate_video_except w with
    | (Val job, w') =>
        match slides fuel env job 0%Q 0%nat with
        | Some clips =>
            Some (try_except (generate_video_render env current_user job clips)
                             generate_video_except w')
        | None => None
        end
    | (Ret r, w') => Some (Ret r, w')
    | (Exc e, w') => Some (Exc e, w')
    end.

End Generate.

(** ** Accounts *)

Module Accounts.

Definition set_users (us : list User) (db : DB) : DB :=
  mkDB us (videos db) (payment_orders db) (payments db).

(** [UPDATE users SET ... WHERE id = %s] *)
Definition update_user (uid : Z) (f : User -> User) (db : DB) : DB :=
  set_users (map (fun u => if u_id u =? uid then f u else u) (users db)) db.

Definition set_auth_key (token : option string) (u : User) : User :=
  mkUser (u_id u) (u_email u) (u_password u) (u_name u) (u_subscription u)
         (u_subscription_expiry u) token (u_reset_token u) (u_reset_token_expiry u).

Definition set_reset_token (token : option string) (expiry : option Z) (u : User) : User :=
  mkUser (u_id u) (u_email u) (u_password u) (u_name u) (u_subscription u)
         (u_subscription_expiry u) (u_auth_key u) token expiry.

Definition set_subscription (subscription : string) (expiry : Z) (u : User) : User :=
  mkUser (u_id u) (u_email u) (u_password u) (u_name u) subscription
         (Some expiry) (u_auth_key u) (u_reset_token u) (u_reset_token_expiry u).

(** [SELECT * FROM users WHERE email = %s], [fetchone()] *)
Definition select_user_by_email (email : string) : M (option User) :=
  db <- read_db ;;
  pure (find (fun u => String.eqb (u_email u) email) (users db)).

(** [with smtplib.SMTP(...) as smtp: starttls; login; send_message(msg)] *)
Definition smtp_send (env : Env) (msg : Email) : M unit :=
  fun w =>
    if smtp_ok env
    then (Val tt, mkWorld (w_db w) (w_dirs w) (w_files w) (w_outbox w ++ [msg]) (w_log w))
    else (Exc (mkExn "SMTPException" "Connection unexpectedly closed"), w).

Definition required_fields : list string := ["email"; "password"; "name"; "confirmPassword"].

(** [data[key]] *)
Definition item (data : dict) (key : string) : M string :=
  match get data key with
  | Some v => pure v
  | None => raise (mkExn "KeyError" ("'" ++ key ++ "'"))
  end.

Definition user_created (env : Env) (token : string) (new_user_id : Z) (email name : string)
    (default_subscription : string) (default_expiry : Z) : json :=
  JObj [("message", JStr "User created successfully");
        ("token", JStr token);
        ("user", JObj [("id", JInt new_user_id);
                       ("email", JStr email);
                       ("name", JStr name);
                       ("subscription", JStr default_subscription);
                       ("subscription_expiry", JStr (str_date env default_expiry));
                       ("subscription_expired", JBool false)])].

Definition welcome_email (email : string) : Email :=
  mkEmail email "Welcome to Our Platform! GEN VIDEO AI"
          "Thank you for signing up to our platform!".

Definition signup (env : Env) (req : Request) : M Response :=
  try_except
    (data <- match json_body req with
             | Some data => pure data
             | None => raise (mkExn "TypeError" "argument of type 'NoneType' is not iterable")
             end ;;
     if negb (forallb (contains data) required_fields) then
       return_ (Resp (error "Missing required fields") 400)
     else
       password <- item data "password" ;;
       confirm <- item data "confirmPassword" ;;
       if negb (String.eqb password confirm) then
         return_ (Resp (error "Passwords do not match") 400)
       else
         conn <- get_db_connection env ;;
         if negb conn then return_ (Resp (error "Database connection failed") 500)
         else
           email <- item data "email" ;;
           existing_user <- select_user_by_email email ;;
           match existing_user with
           | Some _ => return_ (Resp (error "Email already registered") 409)
           | None =>
               (* Set default subscription values *)
               let default_subscription := "free" in
               let default_expiry := date_after env 30 in
               name <- item data "name" ;;
               db <- read_db ;;
               let new_user_id := next_id (map u_id (users db)) in
               write_db (fun db =>
                 set_users (users db ++
                            [mkUser new_user_id email password name default_subscription
                                    (Some default_expiry) None None None]) db) ;;
               (* Generate JWT token *)
               let token := jwt_encode env new_user_id (now env + JWT_EXPIRATION env) in
               write_db (update_user new_user_id (set_auth_key (Some token))) ;;
               (* Send welcome email to newly registered user *)
               try_except
                 (smtp_send env (welcome_email email) ;;
                  log INFO ("Welcome email sent to " ++ email))
                 (fun e =>
                    (* Log the error but don't stop the signup process *)
                    log ERROR ("Failed to send welcome email: " ++ str_exn e)) ;;
               return_ (Resp (user_created env token new_user_id email name
                                           default_subscription default_expiry) 201)
           end)
    (fun e =>
       log ERROR ("Signup error: " ++ str_exn e) ;;
       return_ (Resp (error "Internal server error") 500)).

Definition seconds_per_hour : Z := 3600.

Definition reset_email (env : Env) (email token : string) : Email :=
  mkEmail email "Password Reset Request"
          ("Click the link to reset your password: "
           ++ frontend_url env ++ "/reset-password?token=" ++ token).

Definition forgot_password (env : Env) (req : Request) : M Response :=
  data <- Videos.get_json req ;;
  let email := get data "email" in
  if negb (truthy email) then return_ (Resp (error "Email is required") 400)
  else
    let email := match email with Some s => s | None => "" end in
    conn <- get_db_connection env ;;
    cursor conn ;;
    user <- select_user_by_email email ;;
    match user with
    | None =>
        (* avoid revealing existence *)
        return_ (Resp (message "If the email exists, a reset link will be sent") 200)
    | Some user =>
        (* Generate token *)
        let token :=
          jwt_encode env (u_id user)
                     (now env + RESET_TOKEN_EXPIRY_HOURS env * seconds_per_hour) in
        (* Store token and expiry *)
        write_db (update_user (u_id user)
                    (set_reset_token (Some token)
                       (Some (now env + RESET_TOKEN_EXPIRY_HOURS env * seconds_per_hour)))) ;;
        try_except
          (smtp_send env (reset_email env email token) ;;
           log INFO ("Password reset email sent to " ++ email))
          (fun e =>
             log ERROR ("Failed to send email: " ++ str_exn e) ;;
             return_ (Resp (error ("Failed to send email: " ++ str_exn e)) 500)) ;;
        return_ (Resp (message "Password reset link sent") 200)
    end.

End Accounts.

(** ** Payments *)

Module Payments.

Import Accounts.

Definition set_orders (os : list PaymentOrder) (db : DB) : DB :=
  mkDB (users db) (videos db) os (payments db).

Definition add_payment (p : Payment) (db : DB) : DB :=
  mkDB (users db) (videos db) (payment_orders db) (payments db ++ [p]).

Definition complete (updated_at : Z) (payment_response : option string) (o : PaymentOrder)
    : PaymentOrder :=
  mkOrder (po_order_id o) (po_user_id o) (po_amount o) (po_subscription_type o)
          (po_duration_days o) "COMPLETED" (po_created_at o) (Some updated_at)
          payment_response.

(** [UPDATE payment_orders SET status = 'COMPLETED', ... WHERE order_id = %s] *)
Definition complete_order (order_id : string) (f : PaymentOrder -> PaymentOrder) (db : DB) : DB :=
  set_orders (map (fun o => if String.eqb (po_order_id o) order_id then f o else o)
                  (payment_orders db)) db.

Definition update_subscription_status (env : Env) (user_id : Z) (subscription_type : string)
    (duration_days : Z) : M bool :=
  try_except
    (conn <- get_db_connection env ;;
     cursor conn ;;
     (* Calculate new expiry date *)
     let new_expiry := date_after env duration_days in
     write_db (update_user user_id (set_subscription subscription_type new_expiry)) ;;
     pure true)
    (fun e =>
       log ERROR ("Error updating subscription: " ++ str_exn e) ;;
       pure false).

Definition save_payment_record (env : Env) (order_id : string) (user_id : Z) (amount : Q)
    (payment_details : GatewayOrder) : M bool :=
  try_except
    (conn <- get_db_connection env ;;
     cursor conn ;;
     write_db (add_payment
       (mkPayment order_id (g_cf_order_id payment_details) user_id amount
                  (g_order_status payment_details) (g_payment_method payment_details)
                  (g_cf_payment_id payment_details) (now env))) ;;
     pure true)
    (fun e =>
       log ERROR ("Error saving payment record: " ++ str_exn e) ;;
       pure false).

(** [requests.get(f"{CASHFREE_BASE_URL}/orders/{order_id}", headers=headers)] *)
Definition fetch_order (env : Env) (order_id : string) : M GatewayOrder :=
  match gateway_order env order_id with
  | Some response => pure response
  | None => raise (mkExn "ConnectionError" "Max retries exceeded")
  end.

Definition is_paid (order_data : GatewayOrder) : bool :=
  match g_order_status order_data with
  | Some s => String.eqb s "PAID"
  | None => false
  end.

(** [str(x)] inside an f-string, for a value that may be [None]. *)
Definition str_opt (x : option string) : string :=
  match x with Some s => s | None => "None" end.

Definition payment_success (env : Env) (current_user : User) (req : Request) : M Response :=
  try_except
    (let order_id := get (args req) "order_id" in
     response <- fetch_order env (str_opt order_id) ;;
     if g_status_code response =? 200 then
       let order_data := response in
       (if is_paid order_data then
          (* Get order details from database *)
          conn <- get_db_connection env ;;
          cursor conn ;;
          db <- read_db ;;
          let order_details :=
            match order_id with
            | Some oid =>
                find (fun o => String.eqb (po_order_id o) oid
                               && (po_user_id o =? u_id current_user))
                     (payment_orders db)
            | None => None
            end in
          match order_details with
          | Some order_details =>
              (* Update subscription *)
              success <- update_subscription_status env (u_id current_user)
                           (po_subscription_type order_details)
                           (po_duration_days order_details) ;;
              when success
                (save_payment_record env (str_opt order_id) (u_id current_user)
                                     (po_amount order_details) order_data ;;
                 (* Update order status *)
                 write_db (complete_order (str_opt order_id)
                             (fun o => complete (now env) (po_payment_response o) o)))
          | None => pure tt
          end
        else pure tt) ;;
       return_ (Resp (JObj [("status", JStr "success");
                            ("order_id", json_opt order_id);
                            ("order_status", json_opt (g_order_status order_data));
                            ("payment_details", JStr (g_text order_data))]) 200)
     else
       return_ (Resp (JObj [("status", JStr "error");
                            ("message", JStr "Failed to verify payment")]) 400))
    (fun e =>
       log ERROR ("Payment success error: " ++ str_exn e) ;;
       return_ (Resp (error (str_exn e)) 500)).

(** The body of the webhook request: whether it has a [data] member, the
    [order_id] of [data.order] when there is one, and its text. *)
Record Webhook := mkWebhook {
  wh_has_data : bool;
  wh_order_id : option string;
  wh_text : string
}.

Definition already_processed : json :=
  JObj [("status", JStr "success"); ("message", JStr "Payment already processed")].

Definition processed (order_id : string) (payment_details : GatewayOrder) : json :=
  JObj [("status", JStr "success");
        ("message", JStr ("Payment successfully processed for order " ++ order_id));
        ("order_status", json_opt (g_order_status payment_details));
        ("payment_details", JStr (g_text payment_details))].

Definition pending (order_id : string) (payment_details : GatewayOrder) : json :=
  JObj [("status", JStr "pending");
        ("message", JStr ("Payment not successful for order " ++ order_id));
        ("order_status", json_opt (g_order_status payment_details))].

Definition or_default (x : option string) (default : string) : option string :=
  match x with Some s => Some s | None => Some default end.

Definition payment_webhook (env : Env) (webhook_data : option Webhook) : M Response :=
  try_except
    (log INFO ("Received webhook data: "
               ++ match webhook_data with Some d => wh_text d | None => "null" end) ;;
     match webhook_data with
     | None =>
         log ERROR "Invalid webhook data received" ;;
         return_ (Resp (error "Invalid webhook data") 400)
     | Some data =>
         if negb (wh_has_data data) then
           log ERROR "Invalid webhook data received" ;;
           return_ (Resp (error "Invalid webhook data") 400)
         else if negb (truthy (wh_order_id data)) then
           log ERROR "Missing order_id in webhook data" ;;
           return_ (Resp (error "Missing order_id") 400)
         else
           let order_id := str_opt (wh_order_id data) in
           (* Get payment details from Cashfree API *)
           response <- fetch_order env order_id ;;
           if negb (g_status_code response =? 200) then
             log ERROR ("Failed to fetch order details from Cashfree: " ++ g_text response) ;;
             return_ (Resp (error "Failed to verify order status") 400)
           else
             let payment_details := response in
             log INFO ("Order " ++ order_id ++ " payment status: "
                       ++ str_opt (g_order_status payment_details)) ;;
             if is_paid payment_details then
               connect env ;;
               db <- read_db ;;
               (* Check if payment was already processed:
                  SELECT status FROM payment_orders WHERE order_id = %s FOR UPDATE *)
               let existing_order :=
                 find (fun o => String.eqb (po_order_id o) order_id) (payment_orders db) in
               if match existing_order with
                  | Some o => String.eqb (po_status o) "COMPLETED"
                  | None => false
                  end
               then
                 log INFO ("Payment for order " ++ order_id ++ " was already processed") ;;
                 return_ (Resp already_processed 200)
               else
                 (* Get order details: SELECT * FROM payment_orders WHERE order_id = %s *)
                 let order_details :=
                   find (fun o => String.eqb (po_order_id o) order_id) (payment_orders db) in
                 match order_details with
                 | None =>
                     log ERROR ("Order details not found for order_id: " ++ order_id) ;;
                     return_ (Resp (error "Order not found") 404)
                 | Some order_details =>
                     (* Update subscription *)
                     write_db (update_user (po_user_id order_details)
                                 (set_subscription (po_subscription_type order_details)
                                    (date_after env (po_duration_days order_details)))) ;;
                     (* Save payment record *)
                     write_db (add_payment
                       (mkPayment order_id None (po_user_id order_details)
                                  (po_amount order_details)
                                  (g_order_status payment_details)
                                  (or_default (g_payment_method payment_details) "unknown")
                                  (or_default (g_cf_payment_id payment_details) "")
                                  (now env))) ;;
                     (* Update order status *)
                     write_db (complete_order order_id
                                 (complete (now env) (Some (g_text payment_details)))) ;;
                     log INFO ("Successfully processed payment for order " ++ order_id) ;;
                     return_ (Resp (processed order_id payment_details) 200)
                 end
             else
               log INFO ("Payment not successful for order " ++ order_id ++ ". Status: "
                         ++ str_opt (g_order_status payment_details)) ;;
               return_ (Resp (pending order_id payment_details) 200)
     end)
    (fun e =>
       log ERROR ("Webhook processing error: " ++ str_exn e) ;;
       return_ (Resp (error (str_exn e)) 500)).

End Payments.

From Stdlib Require Import Sorted Permutation.

(** ** Sessions: sign in, log out, session probe, password reset *)

Module Sessions.

Import Accounts.

Definition is_nil_dict (d : dict) : bool :=
  match d with [] => true | _ => false end.

Definition json_date (env : Env) (d : option Z) : json :=
  match d with Some d => JStr (str_date env d) | None => JNull end.

(** [datetime.strptime(str(expiry), '%Y-%m-%d').date() < datetime.now().date()],
    [False] when the column is NULL. *)
Definition lapsed (env : Env) (expiry : option Z) : bool :=
  match expiry with
  | Some d => d <? today env
  | None => false
  end.

Definition user_json (env : Env) (user : User) (subscription_expired : bool) : json :=
  JObj [("id", JInt (u_id user));
        ("email", JStr (u_email user));
        ("name", JStr (u_name user));
        ("subscription", JStr (u_subscription user));
        ("subscription_expiry", json_date env (u_subscription_expiry user));
        ("subscription_expired", JBool subscription_expired)].

Definition failure (msg : string) : json :=
  JObj [("success", JBool false); ("message", JStr msg)].

Definition signed_in (env : Env) (token : string) (user : User) : json :=
  JObj [("success", JBool true);
        ("message", JStr "Sign in successful");
        ("token", JStr token);
        ("user", user_json env user (lapsed env (u_subscription_expiry user)))].

(** [signin]; [method] is [request.method] (the headers the OPTIONS answer
    adds are not kept). *)
Definition signin (env : Env) (method : string) (req : Request) : M Response :=
  if String.eqb method "OPTIONS" then return_ (Resp (JObj []) 200)
  else
    try_except
      (match json_body req with
       | None => return_ (Resp (failure "Please provide email and password") 400)
       | Some data =>
           if is_nil_dict data || negb (truthy (get data "email"))
              || negb (truthy (get data "password")) then
             return_ (Resp (failure "Please provide email and password") 400)
           else
             conn <- get_db_connection env ;;
             if negb conn then return_ (Resp (failure "Database connection failed") 500)
             else
               email <- item data "email" ;;
               user <- select_user_by_email email ;;
               match user with
               | None =>
                   return_ (Resp (JObj [("success", JBool false);
                                        ("message", JStr "User not found. Please sign up");
                                        ("needsSignup", JBool true)]) 404)
               | Some user =>
                   password <- item data "password" ;;
                   if negb (String.eqb (u_password user) password) then
                     return_ (Resp (failure "Incorrect email or password") 401)
                   else
                     (* Generate JWT token *)
                     let token := jwt_encode env (u_id user) (now env + JWT_EXPIRATION env) in
                     (* Update auth_key in the database *)
                     write_db (update_user (u_id user) (set_auth_key (Some token))) ;;
                     return_ (Resp (signed_in env token user) 200)
               end
       end)
      (fun e =>
         log ERROR ("Signin error: " ++ str_exn e) ;;
         return_ (Resp (failure "Internal server error") 500)).

Definition logout (env : Env) (current_user : User) (req : Request) : M Response :=
  try_except
    (conn <- get_db_connection env ;;
     if negb conn then return_ (Resp (failure "Database connection failed") 500)
     else
       (* Set auth_key to NULL to invalidate the token *)
       write_db (update_user (u_id current_user) (set_auth_key None)) ;;
       return_ (Resp (JObj [("success", JBool true);
                            ("message", JStr "Logged out successfully")]) 200))
    (fun e =>
       log ERROR ("Logout error: " ++ str_exn e) ;;
       return_ (Resp (failure "Internal server error") 500)).

Definition set_password (password : string) (u : User) : User :=
  mkUser (u_id u) (u_email u) password (u_name u) (u_subscription u)
         (u_subscription_expiry u) (u_auth_key u) None None.

(** The three [except] clauses of [reset_password], in their order. *)
Definition reset_password_except (e : Exn) : M Response :=
  if String.eqb (exn_class e) "ExpiredSignatureError" then
    return_ (Resp (error "Token expired") 400)
  else if String.eqb (exn_class e) "InvalidTokenError" then
    return_ (Resp (error "Invalid token") 400)
  else
    log ERROR ("Reset password error: " ++ str_exn e) ;;
    return_ (Resp (error ("Unexpected error: " ++ str_exn e)) 500).

Definition reset_password (env : Env) (req : Request) : M Response :=
  data <- Videos.get_json req ;;
  let token := get data "token" in
  let new_password := get data "new_password" in
  if negb (truthy token) || negb (truthy new_password) then
    return_ (Resp (error "Token and new password are required") 400)
  else
    let token := match token with Some t => t | None => "" end in
    let new_password := match new_password with Some p => p | None => "" end in
    try_except
      (payload <- Auth.decode env token ;;
       user_id <- Auth.payload_user_id payload ;;
       conn <- get_db_connection env ;;
       cursor conn ;;
       db <- read_db ;;
       (* SELECT * FROM users WHERE id = %s AND reset_token = %s *)
       let user :=
         find (fun u => (u_id u =? user_id)
                        && match u_reset_token u with
                           | Some t => String.eqb t token
                           | None => false
                           end) (users db) in
       match user with
       | None => return_ (Resp (error "Invalid token") 400)
       | Some user =>
           (* Check if token is expired *)
           if match u_reset_token_expiry user with
              | Some expiry => expiry <? now env
              | None => false
              end
           then return_ (Resp (error "Token expired") 400)
           else
             write_db (update_user user_id (set_password new_password)) ;;
             return_ (Resp (message "Password has been reset successfully") 200)
       end)
      reset_password_except.




End Sessions.

(** ** Listings: the videos of a user, the subscription status *)

Module Listing.

Import Videos.














End Listing.

(** ** Orders: creating a payment, the unauthenticated subscription update *)

Module Orders.

Import Accounts Payments.






(** [verify_payment_status]: paid needs both the order and the payment
    status. *)
Definition verify_payment_status (env : Env) (order_id : string)
    : M (bool * option GatewayOrder) :=
  try_except
    (response <- fetch_order env order_id ;;
     if g_status_code response =? 200 then
       let payment_details := response in
       let is_paid :=
         Payments.is_paid payment_details
         && match g_payment_status payment_details with
            | Some s => String.eqb s "SUCCESS"
            | None => false
            end in
       pure (is_paid, Some payment_details)
     else pure (false, None))
    (fun e =>
       log ERROR ("Error verifying payment: " ++ str_exn e) ;;
       pure (false, None)).

(** [send_email] *)
Definition send_email (env : Env) (to_email subject body : string) : M bool :=
  try_except
    (smtp_send env (mkEmail to_email subject body) ;;
     pure true)
    (fun e =>
       log ERROR ("Error sending email: " ++ str_exn e) ;;
       pure false).

(** [update_subscription] (the route [/update-subscription]); [sql_int] and
    [sql_date] are the number and the date the database reads from the text
    of a parameter ([None]: the statement is refused). *)
Definition update_subscription (env : Env) (sql_int : string -> Z)
    (sql_date : string -> option Z) (req : Request) : M Response :=
  try_except
    (data <- Videos.get_json req ;;
     let user_id := get data "user_id" in
     let new_subscription := get data "subscription" in
     let new_expiry := get data "expiry" in
     if negb (truthy user_id) || negb (truthy new_subscription) || negb (truthy new_expiry) then
       return_ (Resp (error "Missing required fields") 400)
     else
       conn <- get_db_connection env ;;
       if negb conn then return_ (Resp (error "Database connection failed") 500)
       else
         expiry <- match sql_date (str_opt new_expiry) with
                   | Some d => pure d
                   | None => raise (mkExn "DataError" "Incorrect date value")
                   end ;;
         write_db (update_user (sql_int (str_opt user_id))
                               (set_subscription (str_opt new_subscription) expiry)) ;;
         return_ (Resp (JObj [("message", JStr "Subscription updated successfully");
                              ("subscription", json_opt new_subscription);
                              ("expiry", json_opt new_expiry)]) 200))
    (fun e =>
       log ERROR ("Update subscription error: " ++ str_exn e) ;;
       return_ (Resp (error "Internal server error") 500)).

End Orders.

(** ** The success path of the decorators

    [authenticated env req w] is the user row the decorators hand to the
    view: the bearer token of the request decodes to the id of a stored
    user, over a store that accepts the connection. *)

Definition authenticated (env : Env) (req : Request) (w : World) : option User :=
  match get (headers req) "Authorization" with
  | Some h =>
      match nth_error (split " " h) 1 with
      | Some t =>
          if String.eqb t "" then None
          else match jwt_decode env t with
               | Decoded (Some uid) =>
                   if db_up env then find (fun u => u_id u =? uid) (users (w_db w)) else None
               | _ => None
               end
      | None => None
      end
  | None => None
  end.

(** The number of video rows of a user. *)
Definition stored_count (w : World) (user_id : Z) : Z :=
  Z.of_nat (length (filter (Videos.owned_by user_id) (videos (w_db w)))).

(** A name with no characters other than decimal digits. *)
Definition is_digit (c : ascii) : bool :=
  let n := nat_of_ascii c in (48 <=? n)%nat && (n <=? 57)%nat.

Fixpoint all_digits (s : string) : bool :=
  match s with
  | EmptyString => true
  | String c rest => is_digit c && all_digits rest
  end.

Fixpoint starts_with (p s : string) : bool :=
  match p with
  | EmptyString => true
  | String a p' =>
      match s with
      | String b s' => Ascii.eqb a b && starts_with p' s'
      | EmptyString => false
      end
  end.

(** The shape of the names [generate_unique_filename] gives. *)
Definition is_generated (filename : string) : bool := starts_with "video_" filename.

(** A file of [dir] that cannot be unlinked. *)
Definition blocked (dir : string) (fs : list FileEntry) : bool :=
  existsb (fun f => String.eqb (f_dir f) dir && f_locked f) fs.

(** The row [signup] leaves for the new user. *)
Definition signed_up (env : Env) (w : World) (email password name : string) : User :=
  let new_user_id := next_id (map u_id (users (w_db w))) in
  mkUser new_user_id email password name "free" (Some (date_after env 30))
         (Some (jwt_encode env new_user_id (now env + JWT_EXPIRATION env))) None None.

(** ** A small installation, for concrete runs *)

Module Sample.

Definition decode (token : string) : jwt_result :=
  if String.eqb token "token-alice" then Decoded (Some 1)
  else if String.eqb token "token-bob" then Decoded (Some 2)
  else if String.eqb token "token-old" then ExpiredSignatureError
  else InvalidTokenError.

Definition paid : GatewayOrder :=
  mkGatewayOrder 200 (Some "PAID") (Some "SUCCESS") (Some "upi") (Some "cf-pay-7")
                 (Some "cf-77") "{order_status: PAID}".

Definition float_table (s : string) : option Q :=
  if String.eqb s "0" then Some 0%Q
  else if String.eqb s "2" then Some 2%Q
  else if String.eqb s "4" then Some 4%Q
  else None.

Definition install (database smtp : bool) (clock : Z) : Env :=
  mkEnv 2 1 86400 "new_output" "media/images" "media/voice" "media/background"
        "https://app.example" database clock str_int decode
        (fun uid exp => "jwt-" ++ str_int uid ++ "-" ++ str_int exp)
        (fun _ => Some paid) smtp (fun _ => (1 # 2)%Q) (fun l => l) "0042" "20240101_120000"
        float_table (fun s => s) "http://localhost:5000".

Definition env : Env := install true true 1700000000.


Definition env_later : Env := install true true 1700003600.

Definition alice : User :=
  mkUser 1 "alice@example.com" "pw-a" "Alice" "free" (Some 19700) (Some "token-alice") None None.

Definition bob : User :=
  mkUser 2 "bob@example.com" "pw-b" "Bob" "pro" (Some 19000) (Some "token-bob") None None.

Definition clip_of_alice : Video :=
  mkVideo 7 1 "video_20231231_235959_0001.mp4" 12%Q 1699990000.


Definition order_of_alice (status : string) : PaymentOrder :=
  mkOrder "order_1700000000_ab12cd34" 1 10%Q "pro" 30 status 1699999000 None None.

Definition store (vs : list Video) (status : string) : DB :=
  mkDB [alice; bob] vs [order_of_alice status] [].

Definition media (locked : bool) : list FileEntry :=
  [mkFile "new_output/user_1" "video_20231231_235959_0001.mp4" locked].

Definition world : World :=
  mkWorld (store [clip_of_alice] "INITIATED") ["new_output"; "new_output/user_1"]
          (media false) [] [].

Definition world_locked : World :=
  mkWorld (store [clip_of_alice] "INITIATED") ["new_output"; "new_output/user_1"]
          (media true) [] [].


Definition clip_of_bob : Video :=
  mkVideo 9 2 "video_20231231_235959_0001.mp4" 8%Q 1699990001.

(** Both users have a row with the same generated filename. *)
Definition world_shared : World :=
  mkWorld (store [clip_of_alice; clip_of_bob] "INITIATED")
          ["new_output"; "new_output/user_1"; "new_output/user_2"]
          (media false ++ [mkFile "new_output/user_2" "video_20231231_235959_0001.mp4" false])
          [] [].

Definition with_header (h : string) : Request :=
  mkRequest [("Authorization", h)] [] [] None [].

Definition as_alice (body : dict) : Request :=
  mkRequest [("Authorization", "Bearer token-alice")] [] [] (Some body) [].

Definition as_bob (body : dict) : Request :=
  mkRequest [("Authorization", "Bearer token-bob")] [] [] (Some body) [].

Definition poll : Request :=
  mkRequest [("Authorization", "Bearer token-alice")]
            [("order_id", "order_1700000000_ab12cd34")] [] None [].

Definition notification : Payments.Webhook :=
  Payments.mkWebhook true (Some "order_1700000000_ab12cd34") "{data: {order: ...}}".


Definition slideshow_job (bound : Q) : Generate.Job :=
  Generate.mkJob bound bound "fade" (1 # 2)%Q ["media/images/a.png"; "media/images/b.png"] []
                 1%Q.

Definition signup_carol : Request :=
  mkRequest [] [] []
            (Some [("email", "carol@example.com"); ("password", "pw-c");
                   ("name", "Carol"); ("confirmPassword", "pw-c")]) [].

Definition forgot (email : string) : Request :=
  mkRequest [] [] [] (Some [("email", email)]) [].

End Sample.

(** ** Further notions used in the statements *)

Fixpoint no_space (s : string) : bool :=
  match s with
  | EmptyString => true
  | String c rest => negb (Ascii.eqb c " ") && no_space rest
  end.

(** A request that carries [token] as its bearer token. *)
Definition with_bearer (token : string) (req : Request) : Request :=
  mkRequest (("Authorization", "Bearer " ++ token) :: headers req) (args req) (form req)
            (json_body req) (files req).

Definition by_email (email : string) (u : User) : bool := String.eqb (u_email u) email.

Definition by_id (uid : Z) (u : User) : bool := u_id u =? uid.

Definition credentials (email password : string) : Request :=
  mkRequest [] [] [] (Some [("email", email); ("password", password)]) [].

(** The time until which a reset token issued now is good. *)
Definition reset_deadline (env : Env) : Z :=
  now env + RESET_TOKEN_EXPIRY_HOURS env * Accounts.seconds_per_hour.

(** The token [forgot_password] issues for a user. *)
Definition reset_token_for (env : Env) (u : User) : string :=
  jwt_encode env (u_id u) (reset_deadline env).

Definition reset_request (token new_password : string) : Request :=
  mkRequest [] [] [] (Some [("token", token); ("new_password", new_password)]) [].

(** The numeric form fields of [generate_video] are absent or parse. *)
Definition floats_ok (env : Env) (req : Request) : bool :=
  forallb (fun key => match get (form req) key with
                      | None => true
                      | Some s => match py_float env s with Some _ => true | None => false end
                      end)
          ["minTime"; "maxTime"; "transitionTime"; "voiceVolume"; "backgroundVolume"].

(** The caption of the slide with index [k]: the [k]-th overlay when there
    is one and it is not empty. *)
Definition caption_at (text_overlays : list string) (k : nat) : option string :=
  match nth_error text_overlays k with
  | Some text => if String.eqb text "" then None else Some text
  | None => None
  end.




Module Demo.

Definition carol_token : string := "jwt-3-1700086400".

(** The installation of [Sample], with a decoder that also reads the tokens
    it issues. *)
Definition bob_reset_token : string := "jwt-2-1700003600".

Definition decode (token : string) : jwt_result :=
  if String.eqb token carol_token then Decoded (Some 3)
  else if String.eqb token bob_reset_token then Decoded (Some 2)
  else Sample.decode token.

Definition install (database smtp : bool) (clock : Z) : Env :=
  mkEnv 2 1 86400 "new_output" "media/images" "media/voice" "media/background"
        "https://app.example" database clock str_int decode
        (fun uid exp => "jwt-" ++ str_int uid ++ "-" ++ str_int exp)
        (fun _ => Some Sample.paid) smtp (fun _ => (1 # 2)%Q) (fun l => l) "0042"
        "20240101_120000" Sample.float_table (fun s => s) "http://localhost:5000".

Definition env : Env := install true true 1700000000.

Definition env_half_hour_later : Env := install true true 1700001800.

Definition poll_by_bob : Request :=
  mkRequest [("Authorization", "Bearer token-bob")]
            [("order_id", "order_1700000000_ab12cd34")] [] None [].






Definition sql_int (s : string) : Z := if String.eqb s "1" then 1 else 0.

Definition sql_date (s : string) : option Z :=
  if String.eqb s "2030-01-01" then Some 21915 else None.

Definition upgrade_alice : Request :=
  mkRequest [] [] []
            (Some [("user_id", "1"); ("subscription", "pro"); ("expiry", "2030-01-01")]) [].

End Demo.

(** * Properties *)

(** One step of a view: the combinators of [M] are unfolded and the
    matches they expose are reduced, up to the next test on the request,
    the store or a collaborator. *)
Ltac view_step :=
  cbv beta iota zeta delta
    [run bind pure return_ raise log read_db write_db try_except try_finally when
     cursor connect get_db_connection negb fst snd].

(** ** Authentication *)

Section AuthFacts.

Import Auth.

Variable env : Env.
Variable f : View.

Lemma authenticated_runs req w u :
  authenticated env req w = Some u ->
  token_required env f req w = f u req w /\ db_up env = true.
Proof.
  unfold authenticated, token_required, bind, bearer.
  destruct (get (headers req) "Authorization") as [h|]; [|discriminate].
  destruct (nth_error (split " " h) 1) as [t|]; [|discriminate].
  cbn. destruct (String.eqb t "") eqn:Et; [discriminate|]. cbn.
  unfold try_except, bind, decode, get_db_connection.
  destruct (jwt_decode env t) as [[uid|]| |]; try discriminate.
  destruct (db_up env); [|discriminate]. cbn.
  intros ->. split; reflexivity.
Qed.

(** No [Authorization] header: 401, and the view is not run. *)
Lemma token_required_missing req w :
  get (headers req) "Authorization" = None ->
  run (token_required env f req) w = (Resp (message "Token is missing") 401, w).
Proof.
  intros H. unfold run, token_required, bind, bearer. rewrite H. reflexivity.
Qed.

(** A header whose second field does not decode (bad signature, expired,
    no [user_id]) or names no stored user: 401, and the view is not run. *)
Lemma token_required_rejects req w h t :
  get (headers req) "Authorization" = Some h ->
  nth_error (split " " h) 1 = Some t ->
  authenticated env req w = None ->
  exists w', run (token_required env f req) w = (Resp (message
    (if String.eqb t "" then "Token is missing" else "Invalid token")) 401, w')
    /\ w_db w' = w_db w.
Proof.
  intros Hh Ht. unfold authenticated, run, token_required, bind, bearer.
  rewrite Hh, Ht. cbn. destruct (String.eqb t "") eqn:Et; cbn.
  - intros _. eexists; split; reflexivity.
  - unfold try_except, bind, decode, get_db_connection.
    destruct (jwt_decode env t) as [[uid|]| |]; cbn;
      try (intros _; eexists; split; reflexivity).
    + destruct (db_up env); cbn.
      * intros ->. eexists; split; reflexivity.
      * intros _. eexists; split; reflexivity.
    + destruct (db_up env); cbn; intros _; eexists; split; reflexivity.
Qed.

(** A valid token of a user whose subscription ended before today: 403. *)
Lemma subscription_required_lapsed req w u expiry :
  authenticated env req w = Some u ->
  u_subscription_expiry u = Some expiry ->
  expiry < today env ->
  run (subscription_required env f req) w
  = (Resp (subscription_expired_body env expiry) 403, w).
Proof.
  unfold authenticated, run, subscription_required, bind, bearer.
  destruct (get (headers req) "Authorization") as [h|]; [|discriminate].
  destruct (nth_error (split " " h) 1) as [t|]; [|discriminate].
  cbn. destruct (String.eqb t "") eqn:Et; [discriminate|]. cbn.
  unfold try_except, bind, decode, get_db_connection.
  destruct (jwt_decode env t) as [[uid|]| |]; try discriminate.
  destruct (db_up env); [|discriminate]. cbn.
  intros -> -> Hlt. apply Z.ltb_lt in Hlt. rewrite Hlt. reflexivity.
Qed.

End AuthFacts.

(** C6. A request whose [Authorization] header has a single field carries
    no usable token, yet the decorator does not answer 401: the indexing of
    the split header raises outside the [try], and the exception leaves the
    decorator unhandled (for every view, store and configuration). *)
Theorem token_required_one_field_header :
  forall env f w,
    run (Auth.token_required env f (Sample.with_header "Bearer")) w
    = (Unhandled (mkExn "IndexError" "list index out of range"), w).
Proof. intros env f w. reflexivity. Qed.

Example expired_token_rejected :
  forall f,
    run (Auth.token_required Sample.env f (Sample.with_header "Bearer token-old")) Sample.world
    = (Resp (message "Invalid token") 401, Sample.world).
Proof. intros f. reflexivity. Qed.

Example empty_token_rejected :
  forall f,
    run (Auth.token_required Sample.env f (Sample.with_header "Bearer ")) Sample.world
    = (Resp (message "Token is missing") 401, Sample.world).
Proof. intros f. reflexivity. Qed.

(** ** The per-user video cap *)

Section VideoLimit.

Import Videos Generate.

Variable env : Env.

Lemma get_user_video_count_connected w user_id :
  db_up env = true ->
  get_user_video_count env user_id w = (Val (stored_count w user_id), w).
Proof.
  intros Hup. unfold get_user_video_count, try_except, bind, get_db_connection.
  rewrite Hup. reflexivity.
Qed.


End VideoLimit.


(** ** Media folders and the cache *)

Section FolderFacts.

Import Files.

Lemma unlink_all_blocked dir fs :
  snd (unlink_all dir fs) = None <-> blocked dir fs = false.
Proof.
  induction fs as [|f fs IH]; cbn; [tauto|].
  destruct (String.eqb (f_dir f) dir); cbn.
  - destruct (f_locked f); cbn; [split; discriminate | exact IH].
  - destruct (unlink_all dir fs) as [kept e]; exact IH.
Qed.

Lemma makedirs_spec path w :
  exists w1, makedirs path w = (Val tt, w1)
             /\ isdir w1 path = true /\ w_db w1 = w_db w /\ w_files w1 = w_files w.
Proof.
  unfold makedirs. destruct (isdir w path) eqn:E.
  - exists w. auto.
  - eexists. split; [reflexivity|]. repeat split.
    unfold isdir; cbn. rewrite existsb_app; cbn. rewrite String.eqb_refl.
    apply orb_true_iff; right; reflexivity.
Qed.

Lemma clear_folder_spec path w :
  isdir w path = true ->
  exists w', clear_folder path w = (Val (negb (blocked path (w_files w))), w')
             /\ w_db w' = w_db w.
Proof.
  intros Hdir. unfold clear_folder, try_except. rewrite Hdir.
  unfold bind, unlink_listing.
  pose proof (unlink_all_blocked path (w_files w)) as Hb.
  destruct (unlink_all path (w_files w)) as [kept [e|]]; cbn in *.
  - destruct (blocked path (w_files w)).
    + eexists; split; reflexivity.
    + destruct Hb as [_ Hb]. discriminate (Hb eq_refl).
  - destruct Hb as [Hb _]. rewrite (Hb eq_refl). eexists; split; reflexivity.
Qed.

End FolderFacts.

Section CacheFacts.

Import Files Videos.

Variable env : Env.

(** C9. [clear_cache_route] deletes every video row of the user whatever
    [clear_folder] returned: when a file of the user's folder cannot be
    unlinked the view answers 500 [Failed to clear cache], and the rows are
    gone all the same. *)
Theorem clear_cache_rows_removed_on_failure req w current_user :
  authenticated env req w = Some current_user ->
  exists w',
    run (clear_cache_route env current_user req) w
    = (if blocked (user_folder_name env (u_id current_user)) (w_files w)
       then Resp (error "Failed to clear cache") 500
       else Resp (message "Cache cleared successfully") 200, w')
    /\ videos (w_db w')
       = filter (fun v => negb (owned_by (u_id current_user) v)) (videos (w_db w))
    /\ users (w_db w') = users (w_db w).
Proof.
  intros Hauth.
  destruct (authenticated_runs env (fun _ _ => pure (Resp JNull 200)) req w current_user Hauth)
    as [_ Hup].
  unfold run, clear_cache_route, try_except, bind, get_user_output_folder.
  cbv zeta. unfold bind.
  destruct (makedirs_spec (user_folder_name env (u_id current_user)) w)
    as (w1 & -> & Hdir & Hdb & Hfiles).
  unfold pure at 1.
  destruct (clear_folder_spec _ _ Hdir) as (w2 & -> & Hdb2).
  unfold get_db_connection. rewrite Hup. cbn.
  rewrite Hfiles, Hdb2, Hdb.
  destruct (blocked _ (w_files w)); cbn; eexists; repeat split.
Qed.

End CacheFacts.

Lemma clear_cache_rows_removed_on_failure_witness :
  authenticated Sample.env (Sample.as_alice []) Sample.world_locked = Some Sample.alice
  /\ exists w',
       run (Videos.clear_cache_route Sample.env Sample.alice (Sample.as_alice []))
           Sample.world_locked
       = (Resp (error "Failed to clear cache") 500, w')
       /\ videos (w_db w') = []
       /\ users (w_db w') = [Sample.alice; Sample.bob].
Proof.
  split; [reflexivity|].
  exact (clear_cache_rows_removed_on_failure Sample.env (Sample.as_alice [])
           Sample.world_locked Sample.alice eq_refl).
Defined.

(** ** Deleting and serving videos *)

Section DeleteFacts.

Import Files Videos.

Variable env : Env.

Lemma delete_video_open_passes req w data :
  db_up env = true ->
  json_body req = Some data ->
  truthy (get data "videoId") || truthy (get data "filename") = true ->
  try_except (delete_video_open env req) delete_video_except w
  = (Val (get data "videoId", get data "filename"), w).
Proof.
  intros Hup Hbody Hkey.
  unfold try_except, delete_video_open, bind, get_json, get_db_connection.
  rewrite Hbody, Hup. cbn.
  destruct (truthy (get data "videoId")); cbn in *; [reflexivity|].
  rewrite Hkey. reflexivity.
Qed.



End DeleteFacts.

Section OwnershipFacts.

Import Files Videos.

Variable env : Env.

Lemma find_none_forall {A} (p : A -> bool) (l : list A) :
  (forall a, In a l -> p a = false) -> find p l = None.
Proof.
  induction l as [|a l IH]; cbn; intros H; [reflexivity|].
  rewrite (H a (or_introl eq_refl)). apply IH. intros b Hb. apply H. right; exact Hb.
Qed.



Lemma str_int_truthy z : truthy (Some (str_int z)) = true.
Proof.
  unfold str_int. destruct (Z.to_int z) as [d|d]; [|reflexivity].
  destruct d; reflexivity.
Qed.

Lemma generate_unique_filename_is_generated e :
  is_generated (Generate.generate_unique_filename e) = true.
Proof. reflexivity. Qed.





End OwnershipFacts.




(** The deletion itself is not scoped by owner: when the caller has a row
    with the same filename as a row of another user, both rows go (the file
    of the other user stays in its folder). *)
Example delete_video_shared_filename :
  let w' := snd (run (Videos.delete_video Sample.env Sample.bob
                        (Sample.as_bob [("videoId", "video_20231231_235959_0001.mp4")]))
                     Sample.world_shared) in
  videos (w_db Sample.world_shared) = [Sample.clip_of_alice; Sample.clip_of_bob]
  /\ fst (run (Videos.delete_video Sample.env Sample.bob
                 (Sample.as_bob [("videoId", "video_20231231_235959_0001.mp4")]))
              Sample.world_shared)
     = Resp (message "Video deleted successfully") 200
  /\ videos (w_db w') = []
  /\ w_files w' = Sample.media false.
Proof. vm_compute. repeat split. Qed.

(** ** Accounts *)

Section AccountFacts.

Import Accounts.

Variable env : Env.

Lemma fold_max_bound (ids : list Z) z : In z ids -> z <= fold_right Z.max 0 ids.
Proof.
  induction ids as [|a ids IH]; cbn; [tauto|]. intros [->|H]; [lia|].
  specialize (IH H). lia.
Qed.

Lemma next_id_fresh (us : list User) u :
  In u us -> (u_id u =? next_id (map u_id us)) = false.
Proof.
  intros Hin. apply Z.eqb_neq. unfold next_id.
  pose proof (fold_max_bound (map u_id us) (u_id u) (in_map u_id us u Hin)). lia.
Qed.

Lemma update_last (us : list User) (new : User) (f : User -> User) :
  u_id new = next_id (map u_id us) ->
  map (fun u => if u_id u =? next_id (map u_id us) then f u else u) (us ++ [new])
  = (us ++ [f new])%list.
Proof.
  intros Hid. rewrite map_app. cbn [map]. rewrite Hid, Z.eqb_refl. f_equal.
  transitivity (map (fun u : User => u) us); [|apply map_id].
  apply map_ext_in. intros u Hu.
  rewrite (next_id_fresh us u Hu). reflexivity.
Qed.



End AccountFacts.



(** ** Payments *)

Section PaymentFacts.

Import Accounts Payments.

Lemma find_completed order_id t r (os : list PaymentOrder) o :
  find (fun o => String.eqb (po_order_id o) order_id) os = Some o ->
  find (fun o => String.eqb (po_order_id o) order_id)
       (map (fun o => if String.eqb (po_order_id o) order_id then complete t r o else o) os)
  = Some (complete t r o).
Proof.
  induction os as [|a os IH]; cbn; [discriminate|].
  destruct (String.eqb (po_order_id a) order_id) eqn:E; cbn.
  - rewrite E. intros [= ->]. reflexivity.
  - rewrite E. exact IH.
Qed.

(** A webhook for an order whose stored status is COMPLETED changes no
    table, and is answered [Payment already processed] whenever the gateway
    confirms the payment. *)
Lemma webhook_completed_noop env data w order_id o :
  wh_order_id data = Some order_id ->
  find (fun o => String.eqb (po_order_id o) order_id) (payment_orders (w_db w)) = Some o ->
  po_status o = "COMPLETED" ->
  w_db (snd (run (payment_webhook env (Some data)) w)) = w_db w
  /\ (wh_has_data data = true ->
      order_id <> "" ->
      db_up env = true ->
      forall g, gateway_order env order_id = Some g ->
                g_status_code g = 200 ->
                is_paid g = true ->
                fst (run (payment_webhook env (Some data)) w) = Resp already_processed 200).
Proof.
  intros Hid Hfind Hstatus. unfold payment_webhook. rewrite Hid.
  destruct (wh_has_data data); view_step; [|split; [reflexivity|intros; discriminate]].
  cbn [truthy str_opt].
  destruct (String.eqb_spec order_id "") as [->|Hne]; view_step.
  { split; [reflexivity|]. intros _ H; contradiction. }
  unfold fetch_order.
  destruct (gateway_order env order_id) as [g|]; view_step;
    [|split; [reflexivity|intros; discriminate]].
  destruct (g_status_code g =? 200) eqn:Ecode; view_step.
  2:{ split; [reflexivity|]. intros _ _ _ g' [= <-] Hc. apply Z.eqb_eq in Hc. congruence. }
  destruct (is_paid g) eqn:Epaid; view_step.
  2:{ split; [reflexivity|]. intros _ _ _ g' [= <-] _ Hp. congruence. }
  destruct (db_up env); view_step; [|split; [reflexivity|intros; discriminate]].
  cbn [w_db]. rewrite Hfind, Hstatus. cbn [String.eqb Ascii.eqb Bool.eqb]. view_step.
  split; [reflexivity|]. intros _ _ _ g' [= <-] _ _. reflexivity.
Qed.

(** A webhook answered [Payment successfully processed] leaves the order it
    names with the stored status COMPLETED. *)
Lemma webhook_processed_completes env data w order_id g w1 :
  run (payment_webhook env (Some data)) w = (Resp (processed order_id g) 200, w1) ->
  wh_order_id data = Some order_id
  /\ exists o, find (fun o => String.eqb (po_order_id o) order_id)
                    (payment_orders (w_db w1)) = Some o
               /\ po_status o = "COMPLETED".
Proof.
  unfold payment_webhook.
  destruct (wh_has_data data); view_step; [|discriminate].
  destruct (wh_order_id data) as [oid|] eqn:Hid; cbn [truthy str_opt]; view_step;
    [|discriminate].
  destruct (String.eqb oid ""); view_step; [discriminate|].
  unfold fetch_order.
  destruct (gateway_order env oid) as [g0|]; view_step; [|discriminate].
  destruct (g_status_code g0 =? 200); view_step; [|discriminate].
  destruct (is_paid g0); view_step; [|discriminate].
  destruct (db_up env); view_step; [|discriminate].
  cbn [w_db].
  destruct (find (fun o => String.eqb (po_order_id o) oid) (payment_orders (w_db w)))
    as [o|] eqn:Hfind; view_step; [|discriminate].
  destruct (String.eqb (po_status o) "COMPLETED"); view_step; [discriminate|].
  intros H. injection H as Hmsg _ _ Hw.
  assert (oid = order_id) as ->.
  { cbn in Hmsg. congruence. }
  split; [reflexivity|]. subst w1. cbn.
  exists (complete (now env) (Some (g_text g0)) o). split; [|reflexivity].
  apply find_completed. exact Hfind.
Qed.

(** C3. After a webhook that processed an order, a second webhook for the
    same order (at any later time, whatever the gateway answers) leaves the
    users, the payments ledger and the orders as they were, and is answered
    [Payment already processed] whenever the gateway still reports the order
    paid. *)
Theorem webhook_twice_credits_once env1 env2 first second w w1 order_id g1 :
  run (payment_webhook env1 (Some first)) w = (Resp (processed order_id g1) 200, w1) ->
  wh_order_id second = Some order_id ->
  w_db (snd (run (payment_webhook env2 (Some second)) w1)) = w_db w1
  /\ (wh_has_data second = true ->
      db_up env2 = true ->
      forall g2, gateway_order env2 order_id = Some g2 ->
                 g_status_code g2 = 200 ->
                 is_paid g2 = true ->
                 fst (run (payment_webhook env2 (Some second)) w1)
                 = Resp already_processed 200).
Proof.
  intros Hfirst Hsecond.
  destruct (webhook_processed_completes env1 first w order_id g1 w1 Hfirst)
    as (Hid & o & Hfind & Hstatus).
  destruct (webhook_completed_noop env2 second w1 order_id o Hsecond Hfind Hstatus)
    as [Hdb Hresp].
  split; [exact Hdb|].
  intros Hdata Hup g2 Hg Hcode Hpaid.
  assert (Hne : order_id <> "").
  { intros ->. revert Hfirst. unfold payment_webhook. rewrite Hid.
    destruct (wh_has_data first); view_step; discriminate. }
  exact (Hresp Hdata Hne Hup g2 Hg Hcode Hpaid).
Qed.

(** The polling path credits whatever the stored status of the order is:
    nothing below reads [po_status]. *)
Lemma payment_success_credits env current_user req w order_id g o :
  db_up env = true ->
  get (args req) "order_id" = Some order_id ->
  gateway_order env order_id = Some g ->
  g_status_code g = 200 ->
  is_paid g = true ->
  find (fun o => String.eqb (po_order_id o) order_id && (po_user_id o =? u_id current_user))
       (payment_orders (w_db w)) = Some o ->
  exists w',
    run (payment_success env current_user req) w
    = (Resp (JObj [("status", JStr "success");
                   ("order_id", JStr order_id);
                   ("order_status", json_opt (g_order_status g));
                   ("payment_details", JStr (g_text g))]) 200, w')
    /\ payments (w_db w')
       = (payments (w_db w)
          ++ [mkPayment order_id (g_cf_order_id g) (u_id current_user) (po_amount o)
                        (g_order_status g) (g_payment_method g) (g_cf_payment_id g)
                        (now env)])%list
    /\ users (w_db w')
       = map (fun u => if u_id u =? u_id current_user
                       then set_subscription (po_subscription_type o)
                                             (date_after env (po_duration_days o)) u
                       else u) (users (w_db w)).
Proof.
  intros Hup Harg Hgw Hcode Hpaid Hfind.
  unfold payment_success, update_subscription_status, save_payment_record, fetch_order.
  rewrite Harg. cbn [str_opt]. rewrite Hgw. view_step.
  apply Z.eqb_eq in Hcode. rewrite Hcode, Hpaid, Hup. view_step.
  cbn [w_db]. rewrite Hfind. view_step.
  eexists. split; [reflexivity|]. split; reflexivity.
Qed.

End PaymentFacts.

Lemma webhook_twice_credits_once_witness :
  fst (run (Payments.payment_webhook Sample.env (Some Sample.notification)) Sample.world)
  = Resp (Payments.processed "order_1700000000_ab12cd34" Sample.paid) 200
  /\ w_db (snd (run (Payments.payment_webhook Sample.env_later (Some Sample.notification))
                    (snd (run (Payments.payment_webhook Sample.env (Some Sample.notification))
                              Sample.world))))
     = w_db (snd (run (Payments.payment_webhook Sample.env (Some Sample.notification))
                      Sample.world))
  /\ fst (run (Payments.payment_webhook Sample.env_later (Some Sample.notification))
              (snd (run (Payments.payment_webhook Sample.env (Some Sample.notification))
                        Sample.world)))
     = Resp Payments.already_processed 200.
Proof.
  assert (Hfirst :
    run (Payments.payment_webhook Sample.env (Some Sample.notification)) Sample.world
    = (Resp (Payments.processed "order_1700000000_ab12cd34" Sample.paid) 200,
       snd (run (Payments.payment_webhook Sample.env (Some Sample.notification))
                Sample.world))) by (vm_compute; reflexivity).
  destruct (webhook_twice_credits_once Sample.env Sample.env_later Sample.notification
              Sample.notification Sample.world _ _ _ Hfirst eq_refl) as [Hdb Hresp].
  split; [vm_compute; reflexivity|]. split; [exact Hdb|].
  exact (Hresp eq_refl eq_refl Sample.paid eq_refl eq_refl eq_refl).
Defined.

(** C2. The polling path has no status check. The order is first completed
    by the webhook, which writes one ledger row; a poll for the same order
    then finds the row by id and owner only, renews the subscription for
    [duration_days] from the new date and writes a second ledger row. *)
Theorem payment_success_credits_completed_order :
  let w1 := snd (run (Payments.payment_webhook Sample.env (Some Sample.notification))
                     Sample.world) in
  let w2 := snd (run (Payments.payment_success (Sample.install true true 1702592000)
                        Sample.alice Sample.poll) w1) in
  map po_status (payment_orders (w_db w1)) = ["COMPLETED"]
  /\ map p_order_id (payments (w_db w1)) = ["order_1700000000_ab12cd34"]
  /\ map u_subscription_expiry (users (w_db w1)) = [Some 19705; Some 19000]
  /\ status (fst (run (Payments.payment_success (Sample.install true true 1702592000)
                         Sample.alice Sample.poll) w1)) = 200
  /\ map p_order_id (payments (w_db w2))
     = ["order_1700000000_ab12cd34"; "order_1700000000_ab12cd34"]
  /\ map u_subscription_expiry (users (w_db w2)) = [Some 19735; Some 19000].
Proof. vm_compute. repeat split. Qed.

(** ** Slide durations *)

Section SlideFacts.

Import Moviepy Generate.

Variable env : Env.
Variable job : Job.

Hypothesis unit_interval : forall k, (0 <= random_unit env k <= 1)%Q.

Local Open Scope Q_scope.



Hypothesis positive_min : 0 < j_min_time job.
Hypothesis positive_max : 0 < j_max_time job.
Hypothesis some_image : j_image_paths job <> [].





End SlideFacts.




(** * Further properties of the views *)

(** ** Signing in *)

Section SigninFacts.

Import Accounts Sessions.

Variable env : Env.

Lemma find_map {A} (p : A -> bool) (g : A -> A) (l : list A) :
  (forall x, p (g x) = p x) -> find p (map g l) = option_map g (find p l).
Proof.
  intros Hp. induction l as [|a l IH]; [reflexivity|].
  cbn. rewrite Hp. destruct (p a); [reflexivity|exact IH].
Qed.

(** X1. [signin] with a password that is not the stored one is answered 401,
    and with an email that matches no user 404 with [needsSignup]; in both
    cases nothing is written. *)
Theorem signin_rejects req w data email password :
  json_body req = Some data ->
  get data "email" = Some email -> email <> "" ->
  get data "password" = Some password -> password <> "" ->
  db_up env = true ->
  (find (by_email email) (users (w_db w)) = None ->
   run (signin env "POST" req) w
   = (Resp (JObj [("success", JBool false);
                  ("message", JStr "User not found. Please sign up");
                  ("needsSignup", JBool true)]) 404, w))
  /\ (forall user,
        find (by_email email) (users (w_db w)) = Some user ->
        u_password user <> password ->
        run (signin env "POST" req) w = (Resp (failure "Incorrect email or password") 401, w)).
Proof.
  intros Hbody Hemail Hne Hpw Hpne Hup.
  assert (Hopen : forall w0,
    run (signin env "POST" req) w0
    = run (user <- select_user_by_email email ;;
           match user with
           | None =>
               return_ (Resp (JObj [("success", JBool false);
                                    ("message", JStr "User not found. Please sign up");
                                    ("needsSignup", JBool true)]) 404)
           | Some user =>
               if negb (String.eqb (u_password user) password) then
                 return_ (Resp (failure "Incorrect email or password") 401)
               else
                 write_db (update_user (u_id user)
                   (set_auth_key (Some (jwt_encode env (u_id user)
                                                   (now env + JWT_EXPIRATION env))))) ;;
                 return_ (Resp (signed_in env (jwt_encode env (u_id user)
                                                          (now env + JWT_EXPIRATION env))
                                          user) 200)
           end) w0).
  { intros w0. unfold signin. cbn [String.eqb Ascii.eqb Bool.eqb]. rewrite Hbody.
    destruct data as [|kv data']; [discriminate|]. cbn [is_nil_dict orb].
    rewrite Hemail, Hpw. cbn [truthy].
    destruct (String.eqb_spec email ""); [contradiction|].
    destruct (String.eqb_spec password ""); [contradiction|].
    cbn [negb orb]. unfold get_db_connection, item. rewrite Hup, Hemail, Hpw.
    unfold select_user_by_email. view_step.
    destruct (find (fun u => String.eqb (u_email u) email) (users (w_db w0))) as [u|];
      [|reflexivity].
    destruct (String.eqb (u_password u) password); reflexivity. }
  split.
  - intros Hfind. rewrite Hopen. unfold select_user_by_email. view_step.
    unfold by_email in Hfind. rewrite Hfind. reflexivity.
  - intros user Hfind Hwrong. rewrite Hopen. unfold select_user_by_email. view_step.
    unfold by_email in Hfind. rewrite Hfind.
    destruct (String.eqb_spec (u_password user) password); [contradiction|reflexivity].
Qed.

Lemma signin_accepts req w data email password user :
  json_body req = Some data ->
  get data "email" = Some email -> email <> "" ->
  get data "password" = Some password -> password <> "" ->
  db_up env = true ->
  find (by_email email) (users (w_db w)) = Some user ->
  u_password user = password ->
  let token := jwt_encode env (u_id user) (now env + JWT_EXPIRATION env) in
  run (signin env "POST" req) w
  = (Resp (signed_in env token user) 200,
     mkWorld (update_user (u_id user) (set_auth_key (Some token)) (w_db w))
             (w_dirs w) (w_files w) (w_outbox w) (w_log w)).
Proof.
  intros Hbody Hemail Hne Hpw Hpne Hup Hfind Hstored token.
  unfold signin. cbn [String.eqb Ascii.eqb Bool.eqb]. rewrite Hbody.
  destruct data as [|kv data']; [discriminate|]. cbn [is_nil_dict orb].
  rewrite Hemail, Hpw. cbn [truthy].
  destruct (String.eqb_spec email ""); [contradiction|].
  destruct (String.eqb_spec password ""); [contradiction|].
  cbn [negb orb]. unfold get_db_connection, item. rewrite Hup, Hemail, Hpw.
  unfold select_user_by_email. view_step.
  unfold by_email in Hfind. rewrite Hfind, Hstored, String.eqb_refl. reflexivity.
Qed.

(** X2. [signin] with the stored password is answered 200 with a token for
    the user's id that expires [JWT_EXPIRATION] seconds from now, and stores
    that token as the [auth_key] of the rows with that id; nothing else
    changes. *)
Theorem signin_issues_token req w data email password user :
  json_body req = Some data ->
  get data "email" = Some email -> email <> "" ->
  get data "password" = Some password -> password <> "" ->
  db_up env = true ->
  find (by_email email) (users (w_db w)) = Some user ->
  u_password user = password ->
  let token := jwt_encode env (u_id user) (now env + JWT_EXPIRATION env) in
  run (signin env "POST" req) w
  = (Resp (signed_in env token user) 200,
     mkWorld (update_user (u_id user) (set_auth_key (Some token)) (w_db w))
             (w_dirs w) (w_files w) (w_outbox w) (w_log w)).
Proof. exact (signin_accepts req w data email password user). Qed.

End SigninFacts.

(** ** Signing up *)

Section SignupFacts.

Import Accounts Sessions.

Variable env : Env.

Lemma find_app_last {A} (p : A -> bool) (l : list A) (x : A) :
  find p l = None -> p x = true -> find p (l ++ [x]) = Some x.
Proof.
  intros Hnone Hx. induction l as [|a l IH]; cbn in *; [rewrite Hx; reflexivity|].
  destruct (p a); [discriminate|]. apply IH; exact Hnone.
Qed.

(** What a signup that passes validation leaves: the 201 answer and the new
    row at the end of the users, whether or not the welcome mail went out. *)
Lemma signup_inserts req w data email password name :
  json_body req = Some data ->
  get data "email" = Some email ->
  get data "password" = Some password ->
  get data "confirmPassword" = Some password ->
  get data "name" = Some name ->
  db_up env = true ->
  find (by_email email) (users (w_db w)) = None ->
  exists w',
    run (signup env req) w
    = (Resp (user_created env (jwt_encode env (next_id (map u_id (users (w_db w))))
                                           (now env + JWT_EXPIRATION env))
                          (next_id (map u_id (users (w_db w)))) email name "free"
                          (date_after env 30)) 201, w')
    /\ users (w_db w') = (users (w_db w) ++ [signed_up env w email password name])%list
    /\ videos (w_db w') = videos (w_db w)
    /\ payment_orders (w_db w') = payment_orders (w_db w)
    /\ payments (w_db w') = payments (w_db w).
Proof.
  intros Hbody Hemail Hpw Hconfirm Hname Hup Hfind.
  unfold signup, item, get_db_connection, select_user_by_email.
  rewrite Hbody, Hup. view_step. unfold required_fields, forallb, contains.
  rewrite Hemail, Hpw, Hconfirm, Hname. cbn [andb]. view_step.
  rewrite String.eqb_refl. view_step.
  unfold by_email in Hfind. rewrite Hfind. view_step.
  unfold update_user, set_users.
  cbn [w_db users videos payment_orders payments w_dirs w_files w_outbox w_log].
  rewrite (update_last (users (w_db w))
             (mkUser (next_id (map u_id (users (w_db w)))) email password name "free"
                     (Some (date_after env 30)) None None None)
             (set_auth_key _) eq_refl).
  unfold smtp_send. destruct (smtp_ok env); view_step;
    (eexists; split; [reflexivity|]; repeat split).
Qed.

(** X3. The password is kept as given: after a signup that passes
    validation, signing in with the same email and password is answered 200
    for the new user (the accounts of the other users are as before). *)
Theorem signup_then_signin env2 req w data email password name :
  json_body req = Some data ->
  get data "email" = Some email -> email <> "" ->
  get data "password" = Some password -> password <> "" ->
  get data "confirmPassword" = Some password ->
  get data "name" = Some name ->
  db_up env = true ->
  db_up env2 = true ->
  find (by_email email) (users (w_db w)) = None ->
  status (fst (run (signup env req) w)) = 201
  /\ fst (run (signin env2 "POST" (credentials email password))
              (snd (run (signup env req) w)))
     = Resp (signed_in env2
               (jwt_encode env2 (next_id (map u_id (users (w_db w))))
                           (now env2 + JWT_EXPIRATION env2))
               (signed_up env w email password name)) 200.
Proof.
  intros Hbody Hemail Hne Hpw Hpne Hconfirm Hname Hup Hup2 Hfind.
  destruct (signup_inserts req w data email password name Hbody Hemail Hpw Hconfirm Hname
              Hup Hfind) as (w' & Hrun & Husers & _).
  rewrite Hrun. cbn [fst snd status]. split; [reflexivity|].
  rewrite (signin_accepts env2 (credentials email password) w'
             [("email", email); ("password", password)] email password
             (signed_up env w email password name)); try reflexivity; try assumption.
  rewrite Husers. apply find_app_last; [exact Hfind|].
  unfold by_email, signed_up. cbn. apply String.eqb_refl.
Qed.

(** X4. [signup] validates before it touches the store: a body that lacks
    one of the four fields, or whose two passwords differ, is answered 400,
    and an email that is already registered 409; the world is unchanged. *)
Theorem signup_validates req w data :
  json_body req = Some data ->
  (forallb (contains data) required_fields = false ->
   run (signup env req) w = (Resp (error "Missing required fields") 400, w))
  /\ (forall password confirm,
        forallb (contains data) required_fields = true ->
        get data "password" = Some password ->
        get data "confirmPassword" = Some confirm ->
        password <> confirm ->
        run (signup env req) w = (Resp (error "Passwords do not match") 400, w))
  /\ (forall email password existing,
        forallb (contains data) required_fields = true ->
        get data "email" = Some email ->
        get data "password" = Some password ->
        get data "confirmPassword" = Some password ->
        db_up env = true ->
        find (by_email email) (users (w_db w)) = Some existing ->
        run (signup env req) w = (Resp (error "Email already registered") 409, w)).
Proof.
  intros Hbody. split; [|split].
  - intros Hmissing. unfold signup. rewrite Hbody. view_step. rewrite Hmissing. reflexivity.
  - intros password confirm Hall Hpw Hconfirm Hdiff.
    unfold signup, item. rewrite Hbody. view_step. rewrite Hall, Hpw, Hconfirm. view_step.
    destruct (String.eqb_spec password confirm); [contradiction|reflexivity].
  - intros email password existing Hall Hemail Hpw Hconfirm Hup Hfind.
    unfold signup, item, select_user_by_email. rewrite Hbody. view_step.
    rewrite Hall, Hpw, Hconfirm. view_step. rewrite String.eqb_refl. view_step.
    rewrite Hup, Hemail. view_step. unfold by_email in Hfind. rewrite Hfind. reflexivity.
Qed.

Lemma find_none_not_in email (us : list User) :
  find (by_email email) us = None -> ~ In email (map u_email us).
Proof.
  intros Hnone Hin. apply in_map_iff in Hin. destruct Hin as (u & Hu & Hin).
  pose proof (find_none _ _ Hnone u Hin) as H. unfold by_email in H.
  rewrite Hu, String.eqb_refl in H. discriminate.
Qed.

Lemma NoDup_snoc {A} (l : list A) (x : A) : NoDup l -> ~ In x l -> NoDup (l ++ [x]).
Proof.
  intros Hl Hx. induction Hl as [|a l Ha Hl IH]; cbn.
  - constructor; [intros []|constructor].
  - constructor.
    + rewrite in_app_iff. intros [H|[H|[]]]; [exact (Ha H)|]. subst. apply Hx. left; reflexivity.
    + apply IH. intros H. apply Hx. right; exact H.
Qed.

Lemma next_id_not_in (us : list User) : ~ In (next_id (map u_id us)) (map u_id us).
Proof.
  intros Hin. pose proof (fold_max_bound (map u_id us) _ Hin) as H. unfold next_id in H. lia.
Qed.

(** X5. [signup] keeps emails and ids unique: whatever the request, if no
    two users share an email (an id) before the call, none do after it. *)
Theorem signup_keeps_users_unique req w :
  (NoDup (map u_email (users (w_db w))) ->
   NoDup (map u_email (users (w_db (snd (run (signup env req) w))))))
  /\ (NoDup (map u_id (users (w_db w))) ->
      NoDup (map u_id (users (w_db (snd (run (signup env req) w)))))).
Proof.
  assert (Hcases :
    w_db (snd (run (signup env req) w)) = w_db w
    \/ exists email password name,
         find (by_email email) (users (w_db w)) = None
         /\ users (w_db (snd (run (signup env req) w)))
            = (users (w_db w) ++ [signed_up env w email password name])%list).
  { unfold signup, item, select_user_by_email, get_db_connection.
    destruct (json_body req) as [data|]; view_step; [|left; reflexivity].
    destruct (forallb (contains data) required_fields) eqn:Hall; view_step;
      [|left; reflexivity].
    unfold required_fields, forallb, contains in Hall.
    destruct (get data "email") as [email|]; [|discriminate].
    destruct (get data "password") as [password|]; [|discriminate].
    destruct (get data "name") as [name|]; [|discriminate].
    destruct (get data "confirmPassword") as [confirm|]; [|discriminate].
    view_step.
    destruct (String.eqb_spec password confirm) as [<-|]; view_step; [|left; reflexivity].
    destruct (db_up env); view_step; [|left; reflexivity].
    destruct (find (fun u => String.eqb (u_email u) email) (users (w_db w))) eqn:Hfind;
      view_step; [left; reflexivity|].
    right. exists email, password, name. split; [exact Hfind|].
    unfold update_user, set_users.
    cbn [w_db users videos payment_orders payments w_dirs w_files w_outbox w_log].
    rewrite (update_last (users (w_db w))
               (mkUser (next_id (map u_id (users (w_db w)))) email password name "free"
                       (Some (date_after env 30)) None None None)
               (set_auth_key _) eq_refl).
    unfold smtp_send. destruct (smtp_ok env); reflexivity. }
  destruct Hcases as [->|(email & password & name & Hfind & ->)]; [tauto|].
  rewrite !map_app. cbn [map signed_up u_email u_id]. split; intros Hnodup.
  - apply NoDup_snoc; [exact Hnodup|]. apply find_none_not_in; exact Hfind.
  - apply NoDup_snoc; [exact Hnodup|]. apply next_id_not_in.
Qed.

End SignupFacts.

Lemma signin_rejects_witness :
  find (by_email "alice@example.com") (users (w_db Sample.world)) = Some Sample.alice
  /\ u_password Sample.alice <> "guess"
  /\ run (Sessions.signin Sample.env "POST" (credentials "alice@example.com" "guess"))
         Sample.world
     = (Resp (Sessions.failure "Incorrect email or password") 401, Sample.world).
Proof.
  split; [reflexivity|]. split; [discriminate|].
  refine (proj2 (signin_rejects Sample.env (credentials "alice@example.com" "guess")
                   Sample.world [("email", "alice@example.com"); ("password", "guess")]
                   "alice@example.com" "guess" eq_refl eq_refl _ eq_refl _ eq_refl)
                Sample.alice eq_refl _); discriminate.
Defined.

Lemma signin_issues_token_witness :
  find (by_email "alice@example.com") (users (w_db Sample.world)) = Some Sample.alice
  /\ fst (run (Sessions.signin Sample.env "POST" (credentials "alice@example.com" "pw-a"))
              Sample.world)
     = Resp (Sessions.signed_in Sample.env "jwt-1-1700086400" Sample.alice) 200
  /\ map u_auth_key
         (users (w_db (snd (run (Sessions.signin Sample.env "POST"
                                   (credentials "alice@example.com" "pw-a")) Sample.world))))
     = [Some "jwt-1-1700086400"; Some "token-bob"].
Proof.
  split; [reflexivity|].
  rewrite (signin_issues_token Sample.env (credentials "alice@example.com" "pw-a")
             Sample.world [("email", "alice@example.com"); ("password", "pw-a")]
             "alice@example.com" "pw-a" Sample.alice eq_refl eq_refl
             ltac:(discriminate) eq_refl ltac:(discriminate) eq_refl eq_refl eq_refl).
  split; reflexivity.
Defined.

Lemma signup_then_signin_witness :
  find (by_email "carol@example.com") (users (w_db Sample.world)) = None
  /\ status (fst (run (Accounts.signup Sample.env Sample.signup_carol) Sample.world)) = 201
  /\ status (fst (run (Sessions.signin Sample.env_later "POST"
                         (credentials "carol@example.com" "pw-c"))
                      (snd (run (Accounts.signup Sample.env Sample.signup_carol)
                                Sample.world)))) = 200.
Proof.
  split; [reflexivity|].
  destruct (signup_then_signin Sample.env Sample.env_later Sample.signup_carol Sample.world
              [("email", "carol@example.com"); ("password", "pw-c");
               ("name", "Carol"); ("confirmPassword", "pw-c")]
              "carol@example.com" "pw-c" "Carol" eq_refl eq_refl ltac:(discriminate)
              eq_refl ltac:(discriminate) eq_refl eq_refl eq_refl eq_refl eq_refl)
    as [Hcreated Hsigned].
  split; [exact Hcreated|]. rewrite Hsigned. reflexivity.
Defined.

Lemma signup_validates_witness :
  run (Accounts.signup Sample.env
         (mkRequest [] [] []
                    (Some [("email", "dave@example.com"); ("password", "one");
                           ("name", "Dave"); ("confirmPassword", "two")]) []))
      Sample.world
  = (Resp (error "Passwords do not match") 400, Sample.world).
Proof.
  refine (proj1 (proj2 (signup_validates Sample.env
            (mkRequest [] [] []
                       (Some [("email", "dave@example.com"); ("password", "one");
                              ("name", "Dave"); ("confirmPassword", "two")]) [])
            Sample.world
            [("email", "dave@example.com"); ("password", "one");
             ("name", "Dave"); ("confirmPassword", "two")] eq_refl))
                "one" "two" eq_refl eq_refl eq_refl _).
  discriminate.
Defined.

(** ** Tokens, logging out, the subscription gate *)

Section TokenFacts.

Import Accounts Sessions Auth.

Variable env : Env.

Lemma append_assoc (a b c : string) : ((a ++ b) ++ c = a ++ (b ++ c))%string.
Proof. induction a as [|x a IH]; cbn; [reflexivity|rewrite IH; reflexivity]. Qed.

Lemma split_aux_no_space (s cur : string) :
  no_space s = true -> split_aux " " s cur = [(cur ++ s)%string].
Proof.
  revert cur. induction s as [|c s IH]; intros cur Hs; cbn in *.
  - replace (cur ++ "")%string with cur; [reflexivity|].
    induction cur as [|x cur IHc]; cbn; [reflexivity|rewrite <- IHc; reflexivity].
  - apply andb_prop in Hs. destruct Hs as [Hc Hs].
    destruct (Ascii.eqb c " "); [discriminate|].
    rewrite (IH _ Hs), append_assoc. reflexivity.
Qed.

Lemma bearer_field (token : string) :
  no_space token = true ->
  nth_error (split " " ("Bearer " ++ token)) 1 = Some token.
Proof.
  intros Hs. unfold split. cbn [append split_aux Ascii.eqb Bool.eqb].
  rewrite (split_aux_no_space token "" Hs). reflexivity.
Qed.

(** A token without spaces that decodes to the id of a stored user is
    accepted, wherever it came from. *)
Lemma bearer_authenticates req w token uid u :
  token <> "" ->
  no_space token = true ->
  jwt_decode env token = Decoded (Some uid) ->
  db_up env = true ->
  find (by_id uid) (users (w_db w)) = Some u ->
  authenticated env (with_bearer token req) w = Some u.
Proof.
  intros Hne Hs Hdec Hup Hfind. unfold authenticated, with_bearer.
  cbn [headers get String.eqb Ascii.eqb Bool.eqb].
  rewrite (bearer_field token Hs).
  destruct (String.eqb_spec token ""); [contradiction|].
  rewrite Hdec, Hup. exact Hfind.
Qed.

(** X6. [logout] clears the stored [auth_key] and nothing else, and
    [token_required] never reads that column: the request that logged out
    is authenticated again afterwards, as the same user. *)
Theorem logout_does_not_revoke_token req w u :
  authenticated env req w = Some u ->
  exists w',
    run (token_required env (logout env) req) w
    = (Resp (JObj [("success", JBool true); ("message", JStr "Logged out successfully")]) 200,
       w')
    /\ users (w_db w')
       = map (fun x => if u_id x =? u_id u then set_auth_key None x else x) (users (w_db w))
    /\ authenticated env req w' = Some (set_auth_key None u).
Proof.
  intros Hauth.
  destruct (authenticated_runs env (logout env) req w u Hauth) as [Hrun Hup].
  unfold run. rewrite Hrun. unfold logout, get_db_connection. rewrite Hup. view_step.
  eexists. split; [reflexivity|]. split; [reflexivity|].
  revert Hauth. unfold authenticated.
  destruct (get (headers req) "Authorization") as [h|]; [|discriminate].
  destruct (nth_error (split " " h) 1) as [t|]; [|discriminate].
  destruct (String.eqb t ""); [discriminate|].
  destruct (jwt_decode env t) as [[uid|]| |]; try discriminate.
  rewrite Hup. cbn [w_db update_user set_users users]. intros Hfind.
  rewrite (find_map (fun x => u_id x =? uid)
             (fun x => if u_id x =? u_id u then set_auth_key None x else x)).
  - rewrite Hfind. cbn [option_map]. rewrite Z.eqb_refl. reflexivity.
  - intros x. destruct (u_id x =? u_id u); reflexivity.
Qed.

Lemma gate_agrees (f : View) req w :
  (forall u, authenticated env req w = Some u ->
             lapsed env (u_subscription_expiry u) = false) ->
  subscription_required env f req w = token_required env f req w.
Proof.
  unfold authenticated, subscription_required, token_required, bearer.
  destruct (get (headers req) "Authorization") as [h|]; [|reflexivity].
  destruct (nth_error (split " " h) 1) as [t|]; [|reflexivity].
  view_step. cbn [truthy].
  destruct (String.eqb t ""); view_step; [reflexivity|].
  unfold decode, payload_user_id, select_user_by_id.
  destruct (jwt_decode env t) as [[uid|]| |]; view_step; try reflexivity.
  destruct (db_up env); view_step; [|reflexivity].
  destruct (find (fun u => u_id u =? uid) (users (w_db w))) as [u|]; view_step;
    [|reflexivity].
  intros Hok. specialize (Hok u eq_refl). unfold lapsed in Hok.
  destruct (u_subscription_expiry u) as [d|]; [|reflexivity].
  rewrite Hok. reflexivity.
Qed.

(** X7. The two decorators differ only by the expiry test: on a request
    whose user (if it has one) has no expiry date or one that is not before
    today, [subscription_required] does exactly what [token_required] does,
    rejections included. *)
Theorem subscription_required_as_token_required (f : View) req w :
  (forall u, authenticated env req w = Some u ->
             lapsed env (u_subscription_expiry u) = false) ->
  subscription_required env f req w = token_required env f req w.
Proof. exact (gate_agrees f req w). Qed.

End TokenFacts.

Lemma logout_does_not_revoke_token_witness :
  authenticated Sample.env (Sample.as_alice []) Sample.world = Some Sample.alice
  /\ exists w',
       run (Auth.token_required Sample.env (Sessions.logout Sample.env) (Sample.as_alice []))
           Sample.world
       = (Resp (JObj [("success", JBool true); ("message", JStr "Logged out successfully")])
               200, w')
       /\ map u_auth_key (users (w_db w')) = [None; Some "token-bob"]
       /\ authenticated Sample.env (Sample.as_alice []) w'
          = Some (Accounts.set_auth_key None Sample.alice).
Proof.
  split; [reflexivity|].
  destruct (logout_does_not_revoke_token Sample.env (Sample.as_alice []) Sample.world
              Sample.alice eq_refl) as (w' & Hrun & Husers & Hauth).
  exists w'. split; [exact Hrun|]. split; [rewrite Husers; reflexivity|exact Hauth].
Defined.

Lemma subscription_required_as_token_required_witness :
  u_subscription_expiry Sample.alice = Some 19700
  /\ today Sample.env = 19675
  /\ forall f,
       Auth.subscription_required Sample.env f (Sample.as_alice []) Sample.world
       = f Sample.alice (Sample.as_alice []) Sample.world.
Proof.
  split; [reflexivity|]. split; [reflexivity|]. intros f.
  rewrite (subscription_required_as_token_required Sample.env f (Sample.as_alice [])
             Sample.world).
  - reflexivity.
  - intros u [= <-]. reflexivity.
Defined.

(** ** Password reset *)

Section ResetFacts.

Import Accounts Sessions.

Variable env : Env.

(** A forgot-password request for a registered email, with the mail going
    out: the token and its deadline are stored on the rows with the user's
    id, and the mail carries the token. *)
Lemma forgot_password_stores_token req w data email u :
  db_up env = true ->
  smtp_ok env = true ->
  json_body req = Some data ->
  get data "email" = Some email ->
  email <> "" ->
  find (by_email email) (users (w_db w)) = Some u ->
  run (forgot_password env req) w
  = (Resp (message "Password reset link sent") 200,
     mkWorld (update_user (u_id u)
                (set_reset_token (Some (reset_token_for env u)) (Some (reset_deadline env)))
                (w_db w))
             (w_dirs w) (w_files w)
             (w_outbox w ++ [reset_email env email (reset_token_for env u)])
             (w_log w ++ [(INFO, "Password reset email sent to " ++ email)])).
Proof.
  intros Hup Hsmtp Hbody Hemail Hne Hfind.
  unfold forgot_password, Videos.get_json, get_db_connection, select_user_by_email, smtp_send.
  rewrite Hbody, Hup, Hsmtp. view_step. rewrite Hemail. cbn [truthy].
  destruct (String.eqb_spec email ""); [contradiction|]. view_step.
  unfold by_email in Hfind. rewrite Hfind. view_step. reflexivity.
Qed.

(** What [reset_password] does with a token that decodes to [uid] and is
    the stored reset token of the first row with that id. *)
Lemma reset_password_accepts w token new_password uid x :
  token <> "" -> new_password <> "" ->
  jwt_decode env token = Decoded (Some uid) ->
  db_up env = true ->
  find (fun u => (u_id u =? uid)
                 && match u_reset_token u with
                    | Some t => String.eqb t token
                    | None => false
                    end) (users (w_db w)) = Some x ->
  match u_reset_token_expiry x with Some e => now env <= e | None => True end ->
  run (reset_password env (reset_request token new_password)) w
  = (Resp (message "Password has been reset successfully") 200,
     mkWorld (update_user uid (set_password new_password) (w_db w))
             (w_dirs w) (w_files w) (w_outbox w) (w_log w)).
Proof.
  intros Ht Hp Hdec Hup Hfind Hlive.
  unfold reset_password, reset_request, Videos.get_json, get_db_connection,
    Auth.decode, Auth.payload_user_id.
  view_step. cbn [json_body get String.eqb Ascii.eqb Bool.eqb truthy].
  destruct (String.eqb_spec token ""); [contradiction|].
  destruct (String.eqb_spec new_password ""); [contradiction|].
  rewrite Hdec, Hup. view_step. cbn [orb]. view_step. rewrite Hfind.
  destruct (u_reset_token_expiry x) as [e|]; [|reflexivity].
  destruct (Z.ltb_spec e (now env)); [lia|reflexivity].
Qed.

End ResetFacts.

Section ResetRoundTrip.

Import Accounts Sessions.

Variables env1 env2 : Env.

Lemma find_first_with_id (us : list User) (g : User -> User) (p : User -> bool) uid u :
  In u us -> u_id u = uid ->
  (forall x, u_id (g x) = u_id x) ->
  (forall x, u_id x = uid -> p (g x) = true) ->
  exists x, In x us /\ u_id x = uid
            /\ find (fun y => (u_id y =? uid) && p y)
                    (map (fun y => if u_id y =? uid then g y else y) us) = Some (g x).
Proof.
  intros Hin Hid Hg Hp. induction us as [|a us IH]; [destruct Hin|].
  cbn [map find]. destruct (Z.eqb_spec (u_id a) uid) as [Ea|Ea].
  - exists a. split; [left; reflexivity|]. split; [exact Ea|].
    rewrite Hg. destruct (Z.eqb_spec (u_id a) uid); [|contradiction].
    rewrite (Hp a Ea). reflexivity.
  - destruct (Z.eqb_spec (u_id a) uid); [contradiction|]. cbn [andb].
    destruct Hin as [->|Hin]; [contradiction|].
    destruct (IH Hin) as (x & Hx & Hxid & Hfind).
    exists x. split; [right; exact Hx|]. split; assumption.
Qed.

Lemma map_map_if (us : list User) uid (g h : User -> User) :
  (forall x, u_id (g x) = u_id x) ->
  map (fun y => if u_id y =? uid then h y else y)
      (map (fun y => if u_id y =? uid then g y else y) us)
  = map (fun y => if u_id y =? uid then h (g y) else y) us.
Proof.
  intros Hg. rewrite map_map. apply map_ext. intros y.
  destruct (u_id y =? uid) eqn:E; [rewrite Hg, E|rewrite E]; reflexivity.
Qed.

(** X8. Forgot, then reset. After a forgot-password request for a
    registered email has gone through, a reset request that carries the
    issued token before its deadline is answered 200, sets the new password
    on the rows with the user's id and clears the stored token; the rest of
    the users table is as it was before the two requests. *)
Theorem forgot_then_reset req w data email u new_password :
  db_up env1 = true ->
  smtp_ok env1 = true ->
  json_body req = Some data ->
  get data "email" = Some email ->
  email <> "" ->
  find (by_email email) (users (w_db w)) = Some u ->
  reset_token_for env1 u <> "" ->
  new_password <> "" ->
  jwt_decode env2 (reset_token_for env1 u) = Decoded (Some (u_id u)) ->
  db_up env2 = true ->
  now env2 <= reset_deadline env1 ->
  exists w2,
    run (reset_password env2 (reset_request (reset_token_for env1 u) new_password))
        (snd (run (forgot_password env1 req) w))
    = (Resp (message "Password has been reset successfully") 200, w2)
    /\ users (w_db w2)
       = map (fun x => if u_id x =? u_id u then set_password new_password x else x)
             (users (w_db w)).
Proof.
  intros Hup1 Hsmtp Hbody Hemail Hne Hfind Htoken Hpw Hdec Hup2 Hlive.
  rewrite (forgot_password_stores_token env1 req w data email u Hup1 Hsmtp Hbody Hemail
             Hne Hfind).
  cbn [snd].
  destruct (find_some _ _ Hfind) as [Hin _].
  destruct (find_first_with_id (users (w_db w))
              (set_reset_token (Some (reset_token_for env1 u)) (Some (reset_deadline env1)))
              (fun y => match u_reset_token y with
                        | Some t => String.eqb t (reset_token_for env1 u)
                        | None => false
                        end)
              (u_id u) u Hin eq_refl) as (x & Hx & Hxid & Hstored).
  { intros y. reflexivity. }
  { intros y _. cbn. apply String.eqb_refl. }
  eexists. split.
  - apply (reset_password_accepts env2 _ (reset_token_for env1 u) new_password (u_id u)
             (set_reset_token (Some (reset_token_for env1 u)) (Some (reset_deadline env1)) x));
      try assumption.
  - cbn [w_db update_user set_users users].
    rewrite map_map_if; [reflexivity|]. intros y. reflexivity.
Qed.

End ResetRoundTrip.

Section ResetOnce.

Import Accounts Sessions.

Variables env env' : Env.

(** X9. A reset token works once. After a reset request that was answered
    200, a further reset request with the same token (with any new password,
    at any time, decoding the token as before when it still decodes) is not
    answered 200 and changes no table: the stored token was cleared. *)
Theorem reset_token_single_use token new_password again w w2 :
  run (reset_password env (reset_request token new_password)) w
  = (Resp (message "Password has been reset successfully") 200, w2) ->
  (forall payload, jwt_decode env' token = Decoded payload ->
                   jwt_decode env token = Decoded payload) ->
  w_db (snd (run (reset_password env' (reset_request token again)) w2)) = w_db w2
  /\ status (fst (run (reset_password env' (reset_request token again)) w2)) <> 200.
Proof.
  unfold reset_password, reset_request, Videos.get_json, get_db_connection,
    Auth.decode, Auth.payload_user_id.
  view_step. cbn [json_body get String.eqb Ascii.eqb Bool.eqb truthy].
  destruct (String.eqb token ""); view_step; cbn [orb]; view_step; [discriminate|].
  destruct (String.eqb new_password ""); view_step; [discriminate|].
  destruct (jwt_decode env token) as [[uid|]| |] eqn:Hdec; view_step; try discriminate.
  destruct (db_up env); view_step; [|discriminate].
  destruct (find _ (users (w_db w))) as [x|]; [|discriminate].
  destruct (match u_reset_token_expiry x with Some e => e <? now env | None => false end);
    [discriminate|].
  intros [= <-] Hsame.
  destruct (String.eqb again ""); view_step; [split; [reflexivity|discriminate]|].
  destruct (jwt_decode env' token) as [payload| |] eqn:Hdec'; view_step;
    try (split; [reflexivity|discriminate]).
  pose proof (Hsame payload eq_refl) as E. injection E as <-. view_step.
  destruct (db_up env'); view_step; [|split; [reflexivity|discriminate]].
  cbn [w_db update_user set_users users].
  rewrite find_none_forall; [split; [reflexivity|discriminate]|].
  intros y Hy. apply in_map_iff in Hy. destruct Hy as (z & <- & _).
  destruct (u_id z =? uid) eqn:E; cbn [set_password u_id u_reset_token]; rewrite E;
    reflexivity.
Qed.

End ResetOnce.

Lemma forgot_then_reset_witness :
  find (by_email "bob@example.com") (users (w_db Sample.world)) = Some Sample.bob
  /\ reset_token_for Demo.env Sample.bob = Demo.bob_reset_token
  /\ exists w2,
       run (Sessions.reset_password Demo.env_half_hour_later
              (reset_request Demo.bob_reset_token "new-pw"))
           (snd (run (Accounts.forgot_password Demo.env (Sample.forgot "bob@example.com"))
                     Sample.world))
       = (Resp (message "Password has been reset successfully") 200, w2)
       /\ map u_password (users (w_db w2)) = ["pw-a"; "new-pw"]
       /\ map u_reset_token (users (w_db w2)) = [None; None].
Proof.
  split; [reflexivity|]. split; [reflexivity|].
  destruct (forgot_then_reset Demo.env Demo.env_half_hour_later
              (Sample.forgot "bob@example.com") Sample.world
              [("email", "bob@example.com")] "bob@example.com" Sample.bob "new-pw"
              eq_refl eq_refl eq_refl eq_refl ltac:(discriminate) eq_refl
              ltac:(discriminate) ltac:(discriminate) eq_refl eq_refl
              ltac:(vm_compute; discriminate)) as (w2 & Hrun & Husers).
  exists w2. split; [exact Hrun|]. rewrite Husers. split; reflexivity.
Defined.

Lemma reset_token_single_use_witness :
  let w1 := snd (run (Accounts.forgot_password Demo.env (Sample.forgot "bob@example.com"))
                     Sample.world) in
  let w2 := snd (run (Sessions.reset_password Demo.env_half_hour_later
                        (reset_request Demo.bob_reset_token "new-pw")) w1) in
  status (fst (run (Sessions.reset_password Demo.env_half_hour_later
                      (reset_request Demo.bob_reset_token "new-pw")) w1)) = 200
  /\ w_db (snd (run (Sessions.reset_password Demo.env_half_hour_later
                       (reset_request Demo.bob_reset_token "again")) w2)) = w_db w2
  /\ status (fst (run (Sessions.reset_password Demo.env_half_hour_later
                         (reset_request Demo.bob_reset_token "again")) w2)) <> 200.
Proof.
  split; [vm_compute; reflexivity|].
  apply (reset_token_single_use Demo.env_half_hour_later Demo.env_half_hour_later
           Demo.bob_reset_token "new-pw" "again"
           (snd (run (Accounts.forgot_password Demo.env (Sample.forgot "bob@example.com"))
                     Sample.world))).
  - vm_compute; reflexivity.
  - intros payload H; exact H.
Defined.

(** ** What the payment views write *)

Section PaymentEffects.

Import Accounts Payments.

Variable env : Env.


(** X10. The webhook writes on one path only. Whatever it is sent, either
    no table changes, or the gateway answered 200 with [order_status] PAID
    for the order it names, that order is stored with a status other than
    COMPLETED, and the writes are exactly: the subscription and expiry of
    the order's user (not of the caller, the webhook has none), one ledger
    row, and COMPLETED on the rows with that order id. *)
Theorem payment_webhook_writes_only_when_paid webhook_data w :
  w_db (snd (run (payment_webhook env webhook_data) w)) = w_db w
  \/ exists data order_id g o,
       webhook_data = Some data
       /\ wh_order_id data = Some order_id
       /\ gateway_order env order_id = Some g
       /\ g_status_code g = 200
       /\ g_order_status g = Some "PAID"
       /\ find (fun o => String.eqb (po_order_id o) order_id) (payment_orders (w_db w))
          = Some o
       /\ po_status o <> "COMPLETED"
       /\ fst (run (payment_webhook env webhook_data) w) = Resp (processed order_id g) 200
       /\ users (w_db (snd (run (payment_webhook env webhook_data) w)))
          = map (fun u => if u_id u =? po_user_id o
                          then set_subscription (po_subscription_type o)
                                                (date_after env (po_duration_days o)) u
                          else u) (users (w_db w))
       /\ payments (w_db (snd (run (payment_webhook env webhook_data) w)))
          = (payments (w_db w)
             ++ [mkPayment order_id None (po_user_id o) (po_amount o) (g_order_status g)
                           (or_default (g_payment_method g) "unknown")
                           (or_default (g_cf_payment_id g) "") (now env)])%list
       /\ payment_orders (w_db (snd (run (payment_webhook env webhook_data) w)))
          = map (fun x => if String.eqb (po_order_id x) order_id
                          then complete (now env) (Some (g_text g)) x else x)
                (payment_orders (w_db w)).
Proof.
  unfold payment_webhook, fetch_order.
  destruct webhook_data as [data|]; view_step; [|left; reflexivity].
  destruct (wh_has_data data) eqn:Hdata; view_step; [|left; reflexivity].
  destruct (wh_order_id data) as [order_id|] eqn:Hid; cbn [truthy str_opt]; view_step;
    [|left; reflexivity].
  destruct (String.eqb_spec order_id "") as [|Hne]; view_step; [left; reflexivity|].
  destruct (gateway_order env order_id) as [g|] eqn:Hgw; view_step; [|left; reflexivity].
  destruct (g_status_code g =? 200) eqn:Hcode; view_step; [|left; reflexivity].
  destruct (is_paid g) eqn:Hpaid; view_step; [|left; reflexivity].
  destruct (db_up env) eqn:Hup; view_step; [|left; reflexivity].
  cbn [w_db].
  destruct (find (fun o => String.eqb (po_order_id o) order_id) (payment_orders (w_db w)))
    as [o|] eqn:Hfind; view_step; [|left; reflexivity].
  destruct (String.eqb_spec (po_status o) "COMPLETED") as [|Hstatus]; view_step;
    [left; reflexivity|].
  right. exists data, order_id, g, o.
  split; [reflexivity|]. split; [exact Hid|]. split; [exact Hgw|].
  split; [apply Z.eqb_eq; exact Hcode|].
  split.
  { unfold is_paid in Hpaid. destruct (g_order_status g) as [s|]; [|discriminate].
    apply String.eqb_eq in Hpaid. subst s. reflexivity. }
  split; [exact Hfind|]. split; [exact Hstatus|]. repeat split.
Qed.

(** X11. A poll for an order that is not the caller's (or is not stored)
    writes nothing, and is still answered 200 with [status] success when the
    gateway reports the order paid. *)
Theorem payment_success_ignores_foreign_order current_user req w order_id :
  get (args req) "order_id" = Some order_id ->
  find (fun o => String.eqb (po_order_id o) order_id && (po_user_id o =? u_id current_user))
       (payment_orders (w_db w)) = None ->
  w_db (snd (run (payment_success env current_user req) w)) = w_db w
  /\ (forall g, gateway_order env order_id = Some g ->
                g_status_code g = 200 ->
                is_paid g = true ->
                db_up env = true ->
                run (payment_success env current_user req) w
                = (Resp (JObj [("status", JStr "success");
                               ("order_id", JStr order_id);
                               ("order_status", json_opt (g_order_status g));
                               ("payment_details", JStr (g_text g))]) 200, w)).
Proof.
  intros Harg Hfind.
  unfold payment_success, fetch_order. rewrite Harg. cbn [str_opt].
  destruct (gateway_order env order_id) as [g|]; view_step;
    [|split; [reflexivity|intros; discriminate]].
  destruct (g_status_code g =? 200) eqn:Hcode; view_step.
  2:{ split; [reflexivity|]. intros g' [= <-] Hc. apply Z.eqb_eq in Hc. congruence. }
  destruct (is_paid g) eqn:Hpaid; view_step.
  2:{ split; [reflexivity|]. intros g' [= <-] _ Hp. congruence. }
  destruct (db_up env); view_step.
  2:{ split; [reflexivity|]. intros; discriminate. }
  cbn [w_db]. rewrite Hfind. view_step.
  split; [reflexivity|]. intros g' [= <-] _ _ _. reflexivity.
Qed.

End PaymentEffects.

(** ** From an order to a subscription *)

Section OrderLifecycle.

Import Accounts Payments Orders Sessions.

Variable env : Env.



End OrderLifecycle.

Section OrderLifecycleTheorems.

Import Accounts Payments Orders Sessions.

Variables env env2 : Env.


End OrderLifecycleTheorems.

Section SubscriptionStatus.

Import Accounts Payments Sessions Listing.

Variables env env2 : Env.



End SubscriptionStatus.

(** ** Deleting videos and clearing folders, at the edges *)

Section DeleteEdges.

Import Files Videos.

Variable env : Env.

(** X15. The 400 answer of [delete_video] is never sent. When the body is
    missing, when it has neither a [videoId] nor a [filename], or when the
    store refuses the connection, the [finally] clause runs before [cursor]
    was bound: the view ends in an unhandled [UnboundLocalError], with the
    tables and the files as they were. *)
Theorem delete_video_unbound_cursor current_user req w :
  json_body req = None
  \/ (exists data, json_body req = Some data
                   /\ truthy (get data "videoId") = false
                   /\ truthy (get data "filename") = false)
  \/ db_up env = false ->
  exists w',
    run (delete_video env current_user req) w = (Unhandled (UnboundLocalError "cursor"), w')
    /\ w_db w' = w_db w /\ w_files w' = w_files w.
Proof.
  intros Hcase. unfold run, delete_video.
  assert (Hopen : exists out w',
            try_except (delete_video_open env req) delete_video_except w = (out, w')
            /\ (forall x, out <> Val x) /\ w_db w' = w_db w /\ w_files w' = w_files w).
  { unfold delete_video_open, delete_video_except, get_json, get_db_connection.
    destruct (json_body req) as [data|] eqn:Hbody; view_step.
    2:{ eexists; eexists; split; [reflexivity|]. repeat split; discriminate. }
    destruct (truthy (get data "videoId")) eqn:Hv, (truthy (get data "filename")) eqn:Hf;
      cbn [andb]; view_step;
      try (eexists; eexists; split; [reflexivity|]; repeat split; discriminate);
      (destruct Hcase as [Hn|[(d & Hd & Hv' & Hf')|Hdown]];
       [discriminate
       |injection Hd as <-; congruence
       |rewrite Hdown; view_step;
        eexists; eexists; split; [reflexivity|]; repeat split; discriminate]). }
  destruct Hopen as (out & w' & -> & Hout & Hdb & Hfiles).
  destruct out as [[v f]| |]; [exfalso; apply (Hout (v, f)); reflexivity| |];
    exists w'; repeat split; assumption.
Qed.

(** X16. The row goes only after the file has gone. When the caller's row is
    found and its file is in place but cannot be removed, the view answers
    500 and neither the row nor the file is deleted. *)
Theorem delete_video_keeps_row_of_locked_file current_user req w data video file :
  db_up env = true ->
  json_body req = Some data ->
  truthy (get data "videoId") || truthy (get data "filename") = true ->
  find (fun v => named (delete_key (get data "videoId") (get data "filename")) v
                 && owned_by (u_id current_user) v) (videos (w_db w)) = Some video ->
  find (is_entry (user_folder_name env (u_id current_user)) (v_filename video)) (w_files w)
  = Some file ->
  f_locked file = true ->
  exists w',
    run (delete_video env current_user req) w
    = (Resp (error ("Failed to delete video: "
                    ++ str_exn (PermissionError (user_folder_name env (u_id current_user))
                                                (v_filename video)))) 500, w')
    /\ videos (w_db w') = videos (w_db w)
    /\ w_files w' = w_files w.
Proof.
  intros Hup Hbody Hkey Hfind Hfile Hlock. unfold run, delete_video.
  rewrite (delete_video_open_passes env req w data Hup Hbody Hkey).
  unfold try_finally, try_except at 1, delete_video_body, bind at 1, read_db.
  rewrite Hfind. unfold get_user_output_folder. cbv zeta. unfold bind at 1. unfold bind at 1.
  destruct (makedirs_spec (user_folder_name env (u_id current_user)) w)
    as (w1 & -> & Hdir & Hdb & Hfiles).
  unfold pure at 1. unfold bind at 1, exists_.
  assert (Hpresent : isfile w1 (user_folder_name env (u_id current_user)) (v_filename video)
                     = true).
  { unfold isfile. rewrite Hfiles. apply existsb_exists. exists file.
    split; [apply (find_some _ _ Hfile) | apply (find_some _ _ Hfile)]. }
  rewrite Hpresent. cbn [orb negb].
  unfold try_except, bind, remove. rewrite Hfiles, Hfile, Hlock. cbn.
  rewrite Hdb, Hfiles. eexists; repeat split.
Qed.

End DeleteEdges.

Section ClearFolder.

Import Files.




End ClearFolder.

(** ** Video generation, at the edges *)

Section GenerateEdges.

Import Files Videos Moviepy Generate.

Variable env : Env.

Lemma form_float_parses req key default w :
  match get (form req) key with
  | None => true
  | Some s => match py_float env s with Some _ => true | None => false end
  end = true ->
  exists q, form_float env req key default w = (Val q, w).
Proof.
  unfold form_float. destruct (get (form req) key) as [s|]; [|exists default; reflexivity].
  destruct (py_float env s) as [q|]; [exists q; reflexivity|discriminate].
Qed.

(** X18. Uploads are checked before anything is touched: a request under
    the cap whose numeric fields parse but which lacks one of [images],
    [voice] and [backgroundSound] is answered 400, with no folder cleared
    and no file saved. *)
Theorem generate_video_requires_files req w current_user :
  authenticated env req w = Some current_user ->
  stored_count w (u_id current_user) < MAX_VIDEOS_PER_USER env ->
  floats_ok env req = true ->
  has_file req "images" && has_file req "voice" && has_file req "backgroundSound" = false ->
  forall fuel,
    generate_video fuel env current_user req w
    = Some (Ret (Resp (error "Missing required files") 400), w).
Proof.
  intros Hauth Hcount Hfloats Hfiles fuel.
  destruct (authenticated_runs env (fun _ _ => pure (Resp JNull 200)) req w current_user Hauth)
    as [_ Hup].
  unfold floats_ok in Hfloats. cbn [forallb] in Hfloats.
  apply andb_prop in Hfloats. destruct Hfloats as [F1 Hfloats].
  apply andb_prop in Hfloats. destruct Hfloats as [F2 Hfloats].
  apply andb_prop in Hfloats. destruct Hfloats as [F3 Hfloats].
  apply andb_prop in Hfloats. destruct Hfloats as [F4 Hfloats].
  apply andb_prop in Hfloats. destruct Hfloats as [F5 _].
  unfold generate_video, try_except, generate_video_setup, bind.
  rewrite (get_user_video_count_connected env w _ Hup).
  destruct (Z.leb_spec (MAX_VIDEOS_PER_USER env) (stored_count w (u_id current_user)));
    [lia|].
  destruct (form_float_parses req "minTime" 3%Q w F1) as [q1 ->].
  destruct (form_float_parses req "maxTime" 5%Q w F2) as [q2 ->].
  destruct (form_float_parses req "transitionTime" (1 # 2)%Q w F3) as [q3 ->].
  destruct (form_float_parses req "voiceVolume" 1%Q w F4) as [q4 ->].
  destruct (form_float_parses req "backgroundVolume" (3 # 10)%Q w F5) as [q5 ->].
  destruct (has_file req "images"), (has_file req "voice"), (has_file req "backgroundSound");
    try discriminate; reflexivity.
Qed.


End GenerateEdges.

Section SlideOrder.

Import Moviepy Generate.

Variable env : Env.
Variable job : Job.

Lemma slides_images fuel :
  forall total_duration img_index clips,
    slides fuel env job total_duration img_index = Some clips ->
    forall k c,
      nth_error clips k = Some c ->
      c_image c = nth (Nat.modulo (img_index + k) (length (j_image_paths job)))
                      (j_image_paths job) ""
      /\ c_text c = caption_at (j_text_overlays job) (img_index + k).
Proof.
  induction fuel as [|fuel IH]; intros total_duration img_index clips; [discriminate|].
  cbn [slides].
  destruct (Qlt_le_dec total_duration (j_voice_duration job)) as [_|_].
  2:{ intros [= <-] [|k] c; discriminate. }
  destruct (is_nil (j_image_paths job)).
  { intros [= <-] [|k] c; discriminate. }
  destruct (slides fuel env job _ (S img_index)) as [rest|] eqn:Hrest; [|discriminate].
  intros [= <-] [|k] c Hk.
  - injection Hk as <-. rewrite Nat.add_0_r. unfold caption_at.
    destruct (nth_error (j_text_overlays job) img_index) as [text|]; [|split; reflexivity].
    destruct (String.eqb text ""); split; reflexivity.
  - rewrite <- Nat.add_succ_comm. exact (IH _ _ _ Hrest k c Hk).
Qed.

Lemma transitions_keep_slides transition_type transition_time rest :
  forall last,
    map (fun c => (c_image c, c_text c))
        (transitions transition_type transition_time last rest)
    = map (fun c => (c_image c, c_text c)) (last :: rest).
Proof.
  induction rest as [|c rest IH]; intros last; [reflexivity|].
  cbn [transitions]. unfold apply_transition_effects.
  destruct (String.eqb transition_type "fade");
    [|destruct (String.eqb transition_type "slide")];
    cbn [map]; rewrite IH; reflexivity.
Qed.

Lemma nth_error_map_eq {A B} (f : A -> B) (l1 l2 : list A) k c :
  map f l1 = map f l2 ->
  nth_error l1 k = Some c ->
  exists c', nth_error l2 k = Some c' /\ f c' = f c.
Proof.
  revert l2 k. induction l1 as [|a l1 IH]; intros l2 k Hmap Hk.
  - destruct k; discriminate.
  - destruct l2 as [|b l2]; [discriminate|]. injection Hmap as Hab Hmap.
    destruct k as [|k]; cbn in *.
    + injection Hk as <-. exists b. split; [reflexivity|symmetry; exact Hab].
    + exact (IH l2 k Hmap Hk).
Qed.

(** X20. Slides follow the image list. In the video that is assembled, the
    slide with index [k] shows image [k mod n] of the (ordered) image list,
    so the images cycle in order, and it carries the [k]-th text overlay
    exactly when there is one and it is not empty; the transitions change
    neither. *)
Theorem slides_follow_image_order fuel clips video w :
  slides fuel env job 0%Q 0%nat = Some clips ->
  final_video job clips w = (Val video, w) ->
  length (vc_clips video) = length clips
  /\ forall k c,
       nth_error (vc_clips video) k = Some c ->
       c_image c = nth (Nat.modulo k (length (j_image_paths job))) (j_image_paths job) ""
       /\ c_text c = caption_at (j_text_overlays job) k.
Proof.
  intros Hslides Hfinal. unfold final_video in Hfinal.
  destruct clips as [|first rest]; [discriminate|].
  injection Hfinal as <-. cbn [vc_clips concatenate_videoclips].
  pose proof (transitions_keep_slides (j_transition_type job) (j_transition_time job) rest
                first) as Hkeep.
  split.
  - apply (f_equal (@length _)) in Hkeep. rewrite !length_map in Hkeep. exact Hkeep.
  - intros k c Hk.
    destruct (nth_error_map_eq _ _ _ k c Hkeep Hk) as (c' & Hk' & Heq).
    injection Heq as Himg Htext. rewrite <- Himg, <- Htext.
    exact (slides_images fuel _ _ _ Hslides k c' Hk').
Qed.

End SlideOrder.

(** ** Listing videos *)

Section ListingFacts.

Import Videos Listing.










Variable env : Env.


End ListingFacts.

(** ** A video that was generated *)

Section GenerateSuccess.

Import Files Videos Moviepy Generate.

Variable env : Env.




End GenerateSuccess.

Section GenerateThenServe.

Import Files Videos Moviepy Generate.

Variable env : Env.


End GenerateThenServe.

(** ** The subscription update that asks for no token *)

Section OpenUpdate.

Import Accounts Sessions Orders Auth.

Variable env : Env.

(** X23. [update_subscription] reads no token. Any request that names a
    user id, a subscription and an expiry date the database accepts is
    answered 200 and sets both on the rows with that id; a user whose row
    was changed this way passes [subscription_required] from then on when
    the date is not before today, whatever the subscription was before. *)
Theorem update_subscription_needs_no_token sql_int sql_date req w data id_text
    subscription expiry_text expiry :
  json_body req = Some data ->
  get data "user_id" = Some id_text -> id_text <> "" ->
  get data "subscription" = Some subscription -> subscription <> "" ->
  get data "expiry" = Some expiry_text -> expiry_text <> "" ->
  sql_date expiry_text = Some expiry ->
  db_up env = true ->
  exists w',
    run (update_subscription env sql_int sql_date req) w
    = (Resp (JObj [("message", JStr "Subscription updated successfully");
                   ("subscription", JStr subscription);
                   ("expiry", JStr expiry_text)]) 200, w')
    /\ w_db w' = update_user (sql_int id_text) (set_subscription subscription expiry) (w_db w)
    /\ (forall (f : View) caller u,
          authenticated env caller w = Some u ->
          u_id u = sql_int id_text ->
          today env <= expiry ->
          subscription_required env f caller w'
          = f (set_subscription subscription expiry u) caller w').
Proof.
  intros Hbody Hid Hidne Hsub Hsubne Hexp Hexpne Hdate Hup.
  apply String.eqb_neq in Hidne. apply String.eqb_neq in Hsubne.
  apply String.eqb_neq in Hexpne.
  assert (Hrun : run (update_subscription env sql_int sql_date req) w
    = (Resp (JObj [("message", JStr "Subscription updated successfully");
                   ("subscription", JStr subscription);
                   ("expiry", JStr expiry_text)]) 200,
       mkWorld (update_user (sql_int id_text) (set_subscription subscription expiry) (w_db w))
               (w_dirs w) (w_files w) (w_outbox w) (w_log w))).
  { unfold update_subscription, Videos.get_json, get_db_connection.
    rewrite Hbody, Hup. view_step. rewrite Hid, Hsub, Hexp. unfold truthy.
    rewrite Hidne, Hsubne, Hexpne. cbn [Payments.str_opt negb orb]. view_step.
    rewrite Hdate. reflexivity. }
  eexists. split; [exact Hrun|]. split; [reflexivity|].
  intros f caller u Hauth Huid Htoday.
  assert (Hauth' : authenticated env caller
                     (mkWorld (update_user (sql_int id_text)
                                           (set_subscription subscription expiry) (w_db w))
                              (w_dirs w) (w_files w) (w_outbox w) (w_log w))
                   = Some (set_subscription subscription expiry u)).
  { revert Hauth. unfold authenticated.
    destruct (get (headers caller) "Authorization") as [h|]; [|discriminate].
    destruct (nth_error (split " " h) 1) as [t|]; [|discriminate].
    destruct (String.eqb t ""); [discriminate|].
    destruct (jwt_decode env t) as [[uid|]| |]; try discriminate.
    rewrite Hup. cbn [w_db update_user set_users users]. intros Hfind.
    rewrite (find_map (fun x => u_id x =? uid)).
    - rewrite Hfind. cbn [option_map]. rewrite Huid, Z.eqb_refl. reflexivity.
    - intros x. destruct (u_id x =? sql_int id_text); reflexivity. }
  rewrite gate_agrees.
  - exact (proj1 (authenticated_runs env f caller _ _ Hauth')).
  - intros u' Hu'. rewrite Hauth' in Hu'. injection Hu' as <-.
    unfold lapsed. cbn [set_subscription u_subscription_expiry]. apply Z.ltb_ge. exact Htoday.
Qed.

End OpenUpdate.

(** ** Concrete runs of the properties above *)

Lemma signup_keeps_users_unique_witness :
  NoDup (map u_email (users (w_db Sample.world)))
  /\ NoDup (map u_email
                (users (w_db (snd (run (Accounts.signup Sample.env Sample.signup_carol)
                                       Sample.world))))).
Proof.
  assert (H : NoDup (map u_email (users (w_db Sample.world)))).
  { cbn. constructor; [intros [H|[]]; discriminate|]. constructor; [intros []|constructor]. }
  split; [exact H|].
  exact (proj1 (signup_keeps_users_unique Sample.env Sample.signup_carol Sample.world) H).
Defined.

Lemma payment_success_ignores_foreign_order_witness :
  map po_user_id (payment_orders (w_db Sample.world)) = [1]
  /\ run (Payments.payment_success Sample.env Sample.bob Demo.poll_by_bob) Sample.world
     = (Resp (JObj [("status", JStr "success");
                    ("order_id", JStr "order_1700000000_ab12cd34");
                    ("order_status", JStr "PAID");
                    ("payment_details", JStr "{order_status: PAID}")]) 200, Sample.world).
Proof.
  split; [reflexivity|].
  exact (proj2 (payment_success_ignores_foreign_order Sample.env Sample.bob Demo.poll_by_bob
                  Sample.world "order_1700000000_ab12cd34" eq_refl eq_refl)
               Sample.paid eq_refl eq_refl eq_refl eq_refl).
Defined.




Lemma delete_video_unbound_cursor_witness :
  exists w',
    run (Videos.delete_video Sample.env Sample.alice (Sample.as_alice [])) Sample.world
    = (Unhandled (Videos.UnboundLocalError "cursor"), w')
    /\ w_db w' = w_db Sample.world /\ w_files w' = w_files Sample.world.
Proof.
  apply (delete_video_unbound_cursor Sample.env Sample.alice (Sample.as_alice [])
           Sample.world).
  right. left. exists []. repeat split.
Defined.

Lemma delete_video_keeps_row_of_locked_file_witness :
  exists w',
    run (Videos.delete_video Sample.env Sample.alice
           (Sample.as_alice [("filename", "video_20231231_235959_0001.mp4")]))
        Sample.world_locked
    = (Resp (error ("Failed to delete video: [Errno 13] Permission denied: "
                    ++ "'new_output/user_1/video_20231231_235959_0001.mp4'")) 500, w')
    /\ videos (w_db w') = [Sample.clip_of_alice]
    /\ w_files w' = Sample.media true.
Proof.
  exact (delete_video_keeps_row_of_locked_file Sample.env Sample.alice
           (Sample.as_alice [("filename", "video_20231231_235959_0001.mp4")])
           Sample.world_locked [("filename", "video_20231231_235959_0001.mp4")]
           Sample.clip_of_alice
           (mkFile "new_output/user_1" "video_20231231_235959_0001.mp4" true)
           eq_refl eq_refl eq_refl eq_refl eq_refl eq_refl).
Defined.

Lemma generate_video_requires_files_witness :
  stored_count Sample.world 1 = 1
  /\ Generate.generate_video 0 Sample.env Sample.alice (Sample.as_alice []) Sample.world
     = Some (Ret (Resp (error "Missing required files") 400), Sample.world).
Proof.
  split; [reflexivity|].
  exact (generate_video_requires_files Sample.env (Sample.as_alice []) Sample.world
           Sample.alice eq_refl eq_refl eq_refl eq_refl 0%nat).
Defined.


Lemma slides_follow_image_order_witness :
  exists clips video,
    Generate.slides 9 Sample.env (Sample.slideshow_job (1 # 4)) 0%Q 0%nat = Some clips
    /\ Generate.final_video (Sample.slideshow_job (1 # 4)) clips Sample.world
       = (Val video, Sample.world)
    /\ length (Moviepy.vc_clips video) = 4%nat
    /\ forall k c,
         nth_error (Moviepy.vc_clips video) k = Some c ->
         Moviepy.c_image c
         = nth (Nat.modulo k 2) ["media/images/a.png"; "media/images/b.png"] ""
         /\ Moviepy.c_text c = None.
Proof.
  destruct (Generate.slides 9 Sample.env (Sample.slideshow_job (1 # 4)) 0%Q 0%nat)
    as [clips|] eqn:Hslides; [|vm_compute in Hslides; discriminate].
  destruct (Generate.final_video (Sample.slideshow_job (1 # 4)) clips Sample.world)
    as [[video| |] w'] eqn:Hfinal;
    try (vm_compute in Hslides; injection Hslides as <-; vm_compute in Hfinal; discriminate).
  assert (w' = Sample.world) as ->.
  { unfold Generate.final_video in Hfinal. destruct clips; [discriminate|].
    injection Hfinal as _ <-. reflexivity. }
  exists clips, video. split; [reflexivity|]. split; [exact Hfinal|].
  destruct (slides_follow_image_order Sample.env (Sample.slideshow_job (1 # 4)) 9 clips video
              Sample.world Hslides Hfinal) as [Hlen Horder].
  split.
  - rewrite Hlen. vm_compute in Hslides. injection Hslides as <-. reflexivity.
  - intros k c Hk. destruct (Horder k c Hk) as [Himg Htext]. split; [exact Himg|].
    rewrite Htext. unfold caption_at. cbn. destruct k; reflexivity.
Defined.


Lemma update_subscription_needs_no_token_witness :
  headers Demo.upgrade_alice = []
  /\ exists w',
       run (Orders.update_subscription Sample.env Demo.sql_int Demo.sql_date
              Demo.upgrade_alice) Sample.world
       = (Resp (JObj [("message", JStr "Subscription updated successfully");
                      ("subscription", JStr "pro");
                      ("expiry", JStr "2030-01-01")]) 200, w')
       /\ map u_subscription (users (w_db w')) = ["pro"; "pro"]
       /\ map u_subscription_expiry (users (w_db w')) = [Some 21915; Some 19000].
Proof.
  split; [reflexivity|].
  destruct (update_subscription_needs_no_token Sample.env Demo.sql_int Demo.sql_date
              Demo.upgrade_alice Sample.world
              [("user_id", "1"); ("subscription", "pro"); ("expiry", "2030-01-01")]
              "1" "pro" "2030-01-01" 21915 eq_refl eq_refl ltac:(discriminate) eq_refl
              ltac:(discriminate) eq_refl ltac:(discriminate) eq_refl eq_refl)
    as (w' & Hrun & Hdb & _).
  exists w'. split; [exact Hrun|]. rewrite Hdb. split; reflexivity.
Defined.

